(** * Green-taxi pipeline blocks: loader and transformer

    A shallow embedding of the two Mage blocks of the repository,

      - [data_loaders/load_api_green_taxi_data.py]   ([load_data_from_api])
      - [transformers/transformer_grean_taxi_data.py] ([transform], [test_output])

    together with the fragment of the data-frame library they call.
    Column labels are byte strings; the labels of the declared schema are
    ASCII, and [lower] only touches the letters A-Z. *)

From Stdlib Require Import ZArith String Ascii Bool Lia List.
From Stdlib Require Import Floats.SpecFloat.
Import ListNotations.
Open Scope string_scope.
Open Scope Z_scope.

(** ** Column labels: [str.replace] and [str.lower] *)

Module Label.

(** [c] is one of the letters A-Z. *)
Definition is_upper (c : ascii) : bool :=
  ((65 <=? nat_of_ascii c) && (nat_of_ascii c <=? 90))%nat.

Definition lower_char (c : ascii) : ascii :=
  if is_upper c then ascii_of_nat (nat_of_ascii c + 32) else c.

(** [str.lower()] *)
Fixpoint lower (s : string) : string :=
  match s with
  | EmptyString => EmptyString
  | String c s' => String (lower_char c) (lower s')
  end.

(** The scan of [str.replace old new] for a non-empty [old]: [skip] counts
    the characters of the occurrence just replaced that are still to be
    passed over, so occurrences are found left to right and never overlap. *)
Fixpoint replace_from (old new : string) (skip : nat) (s : string) : string :=
  match s with
  | EmptyString => EmptyString
  | String c s' =>
      match skip with
      | S k => replace_from old new k s'
      | O =>
          if String.prefix old s
          then new ++ replace_from old new (String.length old - 1) s'
          else String c (replace_from old new 0 s')
      end
  end.

Fixpoint intersperse_after (new s : string) : string :=
  match s with
  | EmptyString => EmptyString
  | String c s' => String c (new ++ intersperse_after new s')
  end.

(** [s.replace(old, new)]; an empty [old] matches before every character
    and at the end. *)
Definition str_replace (old new s : string) : string :=
  match old with
  | EmptyString => new ++ intersperse_after new s
  | String _ _ => replace_from old new 0 s
  end.

(** One label of [data.columns.str.replace('ID','_id').str.lower()]. *)
Definition normalize (name : string) : string :=
  lower (str_replace "ID" "_id" name).

(** The rule in the specification's words: every occurrence of the two
    letters I, D is rewritten, then the whole name is lower-cased. *)
Fixpoint replace_ID (s : string) : string :=
  match s with
  | String "I" (String "D" rest) => "_id" ++ replace_ID rest
  | String c rest => String c (replace_ID rest)
  | EmptyString => EmptyString
  end.

Definition normalize_spec (name : string) : string := lower (replace_ID name).

(** The letters I, D occur next to each other somewhere in [s]. *)
Fixpoint contains_ID (s : string) : bool :=
  match s with
  | String "I" (String "D" _) => true
  | String _ rest => contains_ID rest
  | EmptyString => false
  end.

(** No letter A-Z occurs in [s]. *)
Fixpoint no_upper (s : string) : bool :=
  match s with
  | EmptyString => true
  | String c s' => negb (is_upper c) && no_upper s'
  end.

End Label.

(** ** Calendar dates of timestamps

    A [datetime64[ns]] value is a count of nanoseconds since
    1970-01-01T00:00:00 (no time zone); [.dt.date] yields the
    [datetime.date] of the proleptic Gregorian calendar. *)

Module Calendar.

Record date := mkdate { year : Z; month : Z; day : Z }.

Definition ns_per_day : Z := 86400000000000.

(** Day number (days since 1970-01-01) to year, month, day. The count is
    shifted to start on 0000-03-01 so that the leap day ends a year, and
    split into 400-year eras of 146097 days. *)
Definition civil_from_days (n : Z) : date :=
  let z := n + 719468 in
  let era := z / 146097 in
  let doe := z - era * 146097 in
  let yoe := (doe - doe / 1460 + doe / 36524 - doe / 146096) / 365 in
  let doy := doe - (365 * yoe + yoe / 4 - yoe / 100) in
  let mp := (5 * doy + 2) / 153 in
  let d := doy - (153 * mp + 2) / 5 + 1 in
  let m := if mp <? 10 then mp + 3 else mp - 9 in
  let y := yoe + era * 400 in
  mkdate (if m <=? 2 then y + 1 else y) m d.

(** Year, month, day to day number: the inverse direction. *)
Definition days_from_civil (dt : date) : Z :=
  let y := if month dt <=? 2 then year dt - 1 else year dt in
  let era := y / 400 in
  let yoe := y - era * 400 in
  let mp := if month dt <=? 2 then month dt + 9 else month dt - 3 in
  let doy := (153 * mp + 2) / 5 + day dt - 1 in
  let doe := yoe * 365 + yoe / 4 - yoe / 100 + doy in
  era * 146097 + doe - 719468.

(** [Timestamp.date()] *)
Definition date_of_ns (ns : Z) : date := civil_from_days (ns / ns_per_day).

End Calendar.

(** ** Exceptions and results *)

Inductive exn : Type :=
| KeyError (key : string)
| AttributeError
| TypeError
| ValueError
| AssertionError (msg : string)
| NotModelled.
(** [NotModelled] is not a Python exception: it marks the calls whose
    behaviour in the data-frame library lies outside this development
    (operands that are sub-frames of equally named columns, dtype pairs
    of [&] other than mask-and-float, frames of differing schema given
    to [concat]). *)

Inductive result (A : Type) : Type :=
| Ok (a : A)
| Raise (e : exn).
Arguments Ok {A} a.
Arguments Raise {A} e.

Definition is_ok {A} (r : result A) : bool :=
  match r with Ok _ => true | Raise _ => false end.

(** The outcome is an exception Python really raises. *)
Definition raises {A} (r : result A) : Prop :=
  exists e, r = Raise e /\ e <> NotModelled.

Definition rbind {A B} (r : result A) (k : A -> result B) : result B :=
  match r with Ok a => k a | Raise e => Raise e end.

Fixpoint mapM {A B} (f : A -> result B) (l : list A) : result (list B) :=
  match l with
  | [] => Ok []
  | x :: l' => rbind (f x) (fun y => rbind (mapM f l') (fun ys => Ok (y :: ys)))
  end.

(** ** The data-frame fragment *)

Module Frame.
Import Calendar.

(** The dtypes the loader declares ([pd.Int64Dtype()], [float], [str]),
    the one [parse_dates] produces, and the object column of dates that
    [.dt.date] produces. *)
Inductive dtype : Type :=
| Int64Dtype | float64 | str_object | datetime64_ns | date_object.

(** A column. [None] is [pd.NA] in a nullable integer column, NaN in a
    text column and [NaT] among timestamps and dates; a float column
    carries its NaN inside [spec_float]. *)
Inductive Series : Type :=
| Int64 (v : list (option Z))
| Float64 (v : list spec_float)
| StrObject (v : list (option string))
| Datetime64 (v : list (option Z))
| DateObject (v : list (option date)).

Definition dtype_of (s : Series) : dtype :=
  match s with
  | Int64 _ => Int64Dtype
  | Float64 _ => float64
  | StrObject _ => str_object
  | Datetime64 _ => datetime64_ns
  | DateObject _ => date_object
  end.

Definition size (s : Series) : nat :=
  match s with
  | Int64 v => length v
  | Float64 v => length v
  | StrObject v => length v
  | Datetime64 v => length v
  | DateObject v => length v
  end.

(** One value of a row. *)
Inductive cell : Type :=
| CInt (z : option Z)
| CFloat (x : spec_float)
| CStr (s : option string)
| CTime (t : option Z)
| CDate (d : option date).

Definition cells (s : Series) : list cell :=
  match s with
  | Int64 v => map CInt v
  | Float64 v => map CFloat v
  | StrObject v => map CStr v
  | Datetime64 v => map CTime v
  | DateObject v => map CDate v
  end.

(** A frame: the row labels and the labelled columns, left to right.
    Labels may repeat. *)
Record DataFrame : Type := mkframe {
  index : list Z;
  blocks : list (string * Series)
}.

Definition columns (df : DataFrame) : list string := map fst (blocks df).
Definition nrows (df : DataFrame) : nat := length (index df).

(** Labels and dtypes, column by column. *)
Definition block_schema (bl : list (string * Series)) : list (string * dtype) :=
  map (fun p => (fst p, dtype_of (snd p))) bl.

Definition schema (df : DataFrame) : list (string * dtype) := block_schema (blocks df).

(** Every column has [n] values. *)
Definition sized (n : nat) (bl : list (string * Series)) : Prop :=
  Forall (fun p => size (snd p) = n) bl.

(** Every column is as long as the index. *)
Definition wf (df : DataFrame) : Prop := sized (nrows df) (blocks df).

(** The cells at position [i], one per column. *)
Definition cells_at (bl : list (string * Series)) (i : nat) : list (option cell) :=
  map (fun p => nth_error (cells (snd p)) i) bl.

(** Row [i] of a frame. *)
Definition row (df : DataFrame) (i : nat) : list (option cell) := cells_at (blocks df) i.

Definition rows (df : DataFrame) : list (list (option cell)) :=
  map (row df) (seq 0 (nrows df)).

(** [RangeIndex(n)] *)
Definition range_index (n : nat) : list Z := map Z.of_nat (seq 0 n).

(** *** Selecting by label *)

(** [data[key]] is a column when the label occurs once and a sub-frame
    of all the columns so named when it repeats. *)
Inductive item : Type :=
| ItemSeries (s : Series)
| ItemFrame (cols : list Series).

Definition labelled (key : string) (df : DataFrame) : list Series :=
  map snd (filter (fun p => String.eqb (fst p) key) (blocks df)).

Definition getitem (df : DataFrame) (key : string) : result item :=
  match labelled key df with
  | [] => Raise (KeyError key)
  | [s] => Ok (ItemSeries s)
  | cols => Ok (ItemFrame cols)
  end.

(** [data.columns = new]: the labels are replaced position by position;
    a list of another length is refused. *)
Definition set_columns (new : list string) (df : DataFrame) : result DataFrame :=
  if (length new =? length (blocks df))%nat
  then Ok (mkframe (index df) (combine new (map snd (blocks df))))
  else Raise ValueError.

(** [data[key] = s]: every column labelled [key] is overwritten in
    place; when there is none the column is appended on the right. *)
Definition setitem (key : string) (s : Series) (df : DataFrame) : DataFrame :=
  if existsb (String.eqb key) (columns df)
  then mkframe (index df)
         (map (fun p => if String.eqb (fst p) key then (fst p, s) else p) (blocks df))
  else mkframe (index df) (blocks df ++ [(key, s)]).

(** [.dt.date]: the accessor exists on datetime columns only. *)
Definition dt_date (x : item) : result Series :=
  match x with
  | ItemSeries (Datetime64 v) => Ok (DateObject (map (option_map date_of_ns) v))
  | _ => Raise AttributeError
  end.

(** *** Boolean masks *)

(** The result of a comparison: the nullable [boolean] array of a
    nullable integer column, or a plain [bool] array. *)
Inductive Mask : Type :=
| BooleanArray (v : list (option bool))
| BoolArray (v : list bool).

Inductive mask_item : Type :=
| MaskSeries (m : Mask)
| MaskFrame (ms : list Mask).

Definition fzero : spec_float := S754_zero false.

Definition is_null {A} (o : option A) : bool :=
  match o with None => true | Some _ => false end.

(** [s > 0]. An integer NA stays NA; NaN compares false; a text or
    date object cannot be ordered against an int, and neither can a
    timestamp column. *)
Definition series_gt0 (s : Series) : result Mask :=
  match s with
  | Int64 v => Ok (BooleanArray (map (option_map (fun z => 0 <? z)) v))
  | Float64 v => Ok (BoolArray (map (fun x => SFltb fzero x) v))
  | StrObject v =>
      if forallb is_null v then Ok (BoolArray (map (fun _ => false) v))
      else Raise TypeError
  | Datetime64 _ => Raise TypeError
  | DateObject v =>
      if forallb is_null v then Ok (BoolArray (map (fun _ => false) v))
      else Raise TypeError
  end.

Definition gt0 (x : item) : result mask_item :=
  match x with
  | ItemSeries s => rbind (series_gt0 s) (fun m => Ok (MaskSeries m))
  | ItemFrame cols => rbind (mapM series_gt0 cols) (fun ms => Ok (MaskFrame ms))
  end.

(** [astype(bool)] of a float: everything but the two zeros, NaN included. *)
Definition truthy (x : spec_float) : bool :=
  match x with S754_zero _ => false | _ => true end.

Definition is_nan (x : spec_float) : bool :=
  match x with S754_nan => true | _ => false end.

(** Three-valued conjunction of the nullable boolean array. *)
Definition kleene_and (a b : option bool) : option bool :=
  match a, b with
  | Some false, _ => Some false
  | _, Some false => Some false
  | Some true, Some true => Some true
  | _, _ => None
  end.

Fixpoint map2 {A B C} (f : A -> B -> C) (l : list A) (l' : list B) : list C :=
  match l, l' with
  | a :: t, b :: t' => f a b :: map2 f t t'
  | _, _ => []
  end.

(** [m & s] for a float column [s]. Under a nullable mask the floats are
    taken as booleans by [astype(bool)]; under a plain mask the NaNs are
    first filled with False. *)
Definition series_and (m : Mask) (s : Series) : result Mask :=
  match m, s with
  | BooleanArray a, Float64 v =>
      Ok (BooleanArray (map2 kleene_and a (map (fun x => Some (truthy x)) v)))
  | BoolArray a, Float64 v =>
      Ok (BoolArray (map2 andb a (map (fun x => truthy x && negb (is_nan x)) v)))
  | _, _ => Raise NotModelled
  end.

Definition and_ (m : mask_item) (x : item) : result Mask :=
  match m, x with
  | MaskSeries m, ItemSeries s => series_and m s
  | _, _ => Raise NotModelled
  end.

(** A boolean against the int 0: True is 1 and False is 0. *)
Definition bool_gt0 (b : bool) : bool := 0 <? (if b then 1 else 0).

(** [m > 0] *)
Definition mask_gt0 (m : Mask) : Mask :=
  match m with
  | BooleanArray v => BooleanArray (map (option_map bool_gt0) v)
  | BoolArray v => BoolArray (map bool_gt0 v)
  end.

(** The indexer of a mask: NA selects nothing. *)
Definition to_indexer (m : Mask) : list bool :=
  match m with
  | BooleanArray v => map (fun o => match o with Some b => b | None => false end) v
  | BoolArray v => v
  end.

Fixpoint compress {A} (keep : list bool) (l : list A) : list A :=
  match keep, l with
  | true :: k, x :: t => x :: compress k t
  | false :: k, _ :: t => compress k t
  | _, _ => []
  end.

Definition series_compress (keep : list bool) (s : Series) : Series :=
  match s with
  | Int64 v => Int64 (compress keep v)
  | Float64 v => Float64 (compress keep v)
  | StrObject v => StrObject (compress keep v)
  | Datetime64 v => Datetime64 (compress keep v)
  | DateObject v => DateObject (compress keep v)
  end.

(** The rows picked by [keep]; they keep their labels and their order. *)
Definition take_rows (keep : list bool) (df : DataFrame) : DataFrame :=
  mkframe (compress keep (index df))
          (map (fun p => (fst p, series_compress keep (snd p))) (blocks df)).

(** [data[m]] for a boolean mask: a new frame; a mask of the wrong
    length is refused. *)
Definition getitem_bool (df : DataFrame) (m : Mask) : result DataFrame :=
  let keep := to_indexer m in
  if (length keep =? nrows df)%nat then Ok (take_rows keep df)
  else Raise ValueError.

(** *** Concatenation *)

Definition series_append (a b : Series) : option Series :=
  match a, b with
  | Int64 x, Int64 y => Some (Int64 (x ++ y))
  | Float64 x, Float64 y => Some (Float64 (x ++ y))
  | StrObject x, StrObject y => Some (StrObject (x ++ y))
  | Datetime64 x, Datetime64 y => Some (Datetime64 (x ++ y))
  | DateObject x, DateObject y => Some (DateObject (x ++ y))
  | _, _ => None
  end.

(** Columns of two frames joined position by position; [None] unless
    the labels and dtypes agree. *)
Fixpoint blocks_append (a b : list (string * Series)) : option (list (string * Series)) :=
  match a, b with
  | [], [] => Some []
  | (n, s) :: a', (n', s') :: b' =>
      if String.eqb n n' then
        match series_append s s', blocks_append a' b' with
        | Some c, Some r => Some ((n, c) :: r)
        | _, _ => None
        end
      else None
  | _, _ => None
  end.

Fixpoint blocks_concat (acc : list (string * Series)) (rest : list DataFrame)
  : option (list (string * Series)) :=
  match rest with
  | [] => Some acc
  | d :: rest' =>
      match blocks_append acc (blocks d) with
      | Some acc' => blocks_concat acc' rest'
      | None => None
      end
  end.

(** [c] holds, column by column, the values of [a] followed by those of
    [b]: what [blocks_append] computes, as a relation. *)
Inductive stacked :
  list (string * Series) -> list (string * Series) -> list (string * Series) -> Prop :=
| stacked_nil : stacked [] [] []
| stacked_cons (n : string) (sa sb sc : Series) (a b c : list (string * Series)) :
    series_append sa sb = Some sc ->
    stacked a b c ->
    stacked ((n, sa) :: a) ((n, sb) :: b) ((n, sc) :: c).

(** [pd.concat(objs, axis=0, ignore_index=True)] for frames of one
    schema: the rows are stacked in list order under a fresh
    [RangeIndex]. An empty list is refused. *)
Definition concat (objs : list DataFrame) : result DataFrame :=
  match objs with
  | [] => Raise ValueError
  | d :: rest =>
      match blocks_concat (blocks d) rest with
      | Some b => Ok (mkframe (range_index (list_sum (map nrows objs))) b)
      | None => Raise NotModelled
      end
  end.

End Frame.

(** ** The transformer block *)

Module Transformer.
Import Frame.

(** What the host may pass besides [data]: outputs of further upstream
    blocks and run-time variables. *)
Inductive pyobj : Type :=
| PyNone
| PyInt (z : Z)
| PyStr (s : string)
| PyFrame (df : DataFrame).

(** Statements run against the frame object bound to [data], which the
    block mutates in place; an exception leaves the mutations made so far. *)
Definition M (A : Type) : Type := DataFrame -> result A * DataFrame.

Definition ret {A} (a : A) : M A := fun data => (Ok a, data).

Definition bind {A B} (m : M A) (k : A -> M B) : M B :=
  fun data =>
    match m data with
    | (Ok a, data') => k a data'
    | (Raise e, data') => (Raise e, data')
    end.

Definition lift {A} (r : result A) : M A := fun data => (r, data).

Definition read {A} (f : DataFrame -> result A) : M A := fun data => (f data, data).

Definition update (f : DataFrame -> result DataFrame) : M unit :=
  fun data =>
    match f data with
    | Ok data' => (Ok tt, data')
    | Raise e => (Raise e, data)
    end.

Declare Scope block_scope.
Delimit Scope block_scope with block.
Notation "x <- m ;; k" := (bind m (fun x => k))
  (at level 61, m at next level, right associativity) : block_scope.
Notation "m ;; k" := (bind m (fun _ => k))
  (at level 61, right associativity) : block_scope.

(** [transform(data, *args, **kwargs)]; the frame [data] is the state. *)
Definition transform (args : list pyobj) (kwargs : list (string * pyobj))
  : M DataFrame :=
  ( (* data.columns = data.columns.str.replace('ID','_id').str.lower() *)
    cols <- read (fun data => Ok (columns data)) ;;
    update (set_columns
              (map Label.lower (map (Label.str_replace "ID" "_id") cols))) ;;
    (* data['lpep_pickup_date'] = data['lpep_pickup_datetime'].dt.date *)
    pickup <- read (fun data => getitem data "lpep_pickup_datetime") ;;
    dates <- lift (dt_date pickup) ;;
    update (fun data => Ok (setitem "lpep_pickup_date" dates data)) ;;
    (* return data[(data['passenger_count'] >0) & (data['trip_distance']) >0]
       where [&] binds tighter than the comparison [>] *)
    passengers <- read (fun data => getitem data "passenger_count") ;;
    positive <- lift (gt0 passengers) ;;
    distance <- read (fun data => getitem data "trip_distance") ;;
    both <- lift (and_ positive distance) ;;
    read (fun data => getitem_bool data (mask_gt0 both)) )%block.

(** The value [transform] returns. *)
Definition transform_output (data : DataFrame) : result DataFrame :=
  fst (transform [] [] data).

(** *** The paired test *)

(** [s.isin([0])] *)
Definition isin_zero (s : Series) : list bool :=
  match s with
  | Int64 v => map (fun o => match o with Some z => z =? 0 | None => false end) v
  | Float64 v => map (fun x => SFeqb x fzero) v
  | StrObject v => map (fun _ => false) v
  | Datetime64 v => map (fun _ => false) v
  | DateObject v => map (fun _ => false) v
  end.

Definition count_true (l : list bool) : nat := List.length (filter (fun b => b) l).

(** [output[key].isin([0]).sum() == 0] *)
Definition no_zero (output : DataFrame) (key : string) : result bool :=
  rbind (getitem output key) (fun x =>
    match x with
    | ItemSeries s => Ok (count_true (isin_zero s) =? 0)%nat
    | ItemFrame _ => Raise NotModelled
    end).

Definition assert_ (cond : bool) (msg : string) : result unit :=
  if cond then Ok tt else Raise (AssertionError msg).

(** [test_output(output, *args)] of the transformer; [None] is Python's. *)
Definition test_output (output : option DataFrame) : result unit :=
  match output with
  | None => Raise (AssertionError "The output is undefined")
  | Some out =>
      rbind (assert_ (existsb (String.eqb "vendor_id") (columns out))
               " vendor_id column is not exist") (fun _ =>
      rbind (no_zero out "passenger_count") (fun ok =>
      rbind (assert_ ok "there are rides with zero passnger") (fun _ =>
      rbind (no_zero out "trip_distance") (fun ok' =>
      assert_ ok' "there are rides with zero trip distance"))))
  end.

(** *** The three steps, one by one *)

(** Step 1: every label is normalized; nothing else changes. *)
Definition normalize_columns (df : DataFrame) : DataFrame :=
  mkframe (index df) (map (fun p => (Label.normalize (fst p), snd p)) (blocks df)).

(** Step 2: the date column is derived from [lpep_pickup_datetime]. *)
Definition add_pickup_date (df : DataFrame) : result DataFrame :=
  rbind (getitem df "lpep_pickup_datetime") (fun pickup =>
  rbind (dt_date pickup) (fun dates =>
  Ok (setitem "lpep_pickup_date" dates df))).

(** The mask of step 3, read off [passenger_count] and [trip_distance]. *)
Definition filter_mask (df : DataFrame) : result Mask :=
  rbind (getitem df "passenger_count") (fun passengers =>
  rbind (gt0 passengers) (fun positive =>
  rbind (getitem df "trip_distance") (fun distance =>
  rbind (and_ positive distance) (fun both =>
  Ok (mask_gt0 both))))).

(** Step 3: the rows selected by the mask. *)
Definition row_filter (df : DataFrame) : result DataFrame :=
  rbind (filter_mask df) (getitem_bool df).

Definition three_steps (df : DataFrame) : result DataFrame :=
  rbind (add_pickup_date (normalize_columns df)) row_filter.

End Transformer.

(** ** The loader block *)

Module Loader.
Import Frame.

Definition url_list : list string :=
  [ "https://github.com/DataTalksClub/nyc-tlc-data/releases/download/green/green_tripdata_2020-10.csv.gz";
    "https://github.com/DataTalksClub/nyc-tlc-data/releases/download/green/green_tripdata_2020-11.csv.gz";
    "https://github.com/DataTalksClub/nyc-tlc-data/releases/download/green/green_tripdata_2020-12.csv.gz" ].

Definition taxi_dtypes : list (string * dtype) :=
  [ ("VendorID", Int64Dtype);
    ("passenger_count", Int64Dtype);
    ("trip_distance", float64);
    ("RatecodeID", Int64Dtype);
    ("store_and_fwd_flag", str_object);
    ("PULocationID", Int64Dtype);
    ("DOLocationID", Int64Dtype);
    ("payment_type", Int64Dtype);
    ("fare_amount", float64);
    ("extra", float64);
    ("mta_tax", float64);
    ("tip_amount", float64);
    ("tolls_amount", float64);
    ("improvement_surcharge", float64);
    ("total_amount", float64);
    ("congestion_surcharge", float64) ].

Definition parse_dates : list string :=
  [ "lpep_pickup_datetime"; "lpep_dropoff_datetime" ].

Section WithResources.

(** [pd.read_csv(url, sep, compression, dtype, parse_dates)]: what the
    resource at [url] decodes to, or the exception of a failed fetch or
    decode. *)
Variable read_csv :
  string -> string -> string -> list (string * dtype) -> list string -> result DataFrame.

(** The loop [for url in url_list: df_list.append(pd.read_csv(...))]. *)
Fixpoint read_each (urls : list string) (df_list : list DataFrame)
  : result (list DataFrame) :=
  match urls with
  | [] => Ok df_list
  | url :: rest =>
      rbind (read_csv url "," "gzip" taxi_dtypes parse_dates)
            (fun df => read_each rest (df_list ++ [df]))
  end.

(** [load_data_from_api], which accepts any [args] and [kwargs]. *)
Definition load_data_from_api (args : list Transformer.pyobj)
    (kwargs : list (string * Transformer.pyobj)) : result DataFrame :=
  rbind (read_each url_list []) concat.

End WithResources.

(** [test_output(output, *args)] of the loader. *)
Definition test_output (output : option DataFrame) : result unit :=
  match output with
  | None => Raise (AssertionError "The output is undefined")
  | Some _ => Ok tt
  end.

End Loader.

(** ** Statements about the blocks *)

Module Contract.
Import Frame Transformer.

(** The labels of [df] after step 1. *)
Definition normalized_columns (df : DataFrame) : list string :=
  map Label.normalize (columns df).

(** After normalization exactly one column is labelled [key], and its
    dtype is [ty]. *)
Definition has_column (df : DataFrame) (key : string) (ty : dtype) : Prop :=
  exists s, labelled key (normalize_columns df) = [s] /\ dtype_of s = ty.

(** The columns the transformer reads. *)
Definition required : list string :=
  [ "passenger_count"; "trip_distance"; "lpep_pickup_datetime" ].

(** The frame bound to [data] once [transform] is over: steps 1 and 2
    were made in place, step 3 built a new frame. *)
Definition mutated (df : DataFrame) : DataFrame :=
  match add_pickup_date (normalize_columns df) with
  | Ok df' => df'
  | Raise _ => normalize_columns df
  end.

(** [out] has the columns of [df] under their normalized labels, in
    order and with the values of the rows picked by some [keep], and one
    more column [lpep_pickup_date] on the right. *)
Definition framed (df out : DataFrame) : Prop :=
  exists keep dates,
    List.length keep = nrows df /\
    index out = compress keep (index df) /\
    blocks out =
      (map (fun p => (Label.normalize (fst p), series_compress keep (snd p))) (blocks df)
       ++ [("lpep_pickup_date", dates)])%list.

(** The frame statement for every input frame. *)
Definition frame_claim (df : DataFrame) : Prop :=
  forall out, transform_output df = Ok out -> framed df out.

(** The error statement read on labels alone. *)
Definition schema_claim (df : DataFrame) : Prop :=
  ((exists k, In k required /\ ~ In k (normalized_columns df)) ->
   is_ok (transform_output df) = false) /\
  ((forall k, In k required -> In k (normalized_columns df)) ->
   is_ok (transform_output df) = true).

Definition positive_int (o : option Z) : Prop := exists z, o = Some z /\ 0 < z.
Definition positive_float (x : spec_float) : Prop := SFltb fzero x = true.

(** Every row of [out] has [passenger_count > 0] and [trip_distance > 0]. *)
Definition retained_positive (out : DataFrame) : Prop :=
  forall p t,
    labelled "passenger_count" out = [Int64 p] ->
    labelled "trip_distance" out = [Float64 t] ->
    Forall positive_int p /\ Forall positive_float t.

(** What line 25 keeps of a row with an integer count and a float
    distance: a count above zero and a distance that is not a zero. *)
Definition kept (count : option Z) (distance : spec_float) : bool :=
  match count with
  | Some z => (0 <? z) && truthy distance
  | None => false
  end.

(** [x] is neither of the two zeros. *)
Definition nonzero (x : spec_float) : Prop := forall sg, x <> S754_zero sg.

(** The labels of [df] are normalized already. *)
Definition normalized (df : DataFrame) : Prop :=
  Forall (fun name => Label.normalize name = name) (columns df).

End Contract.

(** ** Sample frames *)

Module Samples.
Import Frame Transformer.

Definition t_2020_10_01 : Z := 1601512200000000000.
Definition t_2020_11_15 : Z := 1605441600000000000.
Definition t_2020_12_31 : Z := 1609459199999999999.

Definition f_5_0 : spec_float := S754_finite false 5 0.
Definition f_1_2 : spec_float := S754_finite false 5404319552844595 (-52).
Definition f_minus_2_5 : spec_float := S754_finite true 5 (-1).

(** The three rows of the example scenario, then a negative distance,
    a missing count and a NaN distance. *)
Definition trips : DataFrame :=
  mkframe [0; 1; 2; 3; 4; 5]
    [ ("VendorID", Int64 [Some 1; Some 2; None; Some 1; Some 2; Some 1]);
      ("lpep_pickup_datetime",
       Datetime64 [Some t_2020_10_01; Some t_2020_10_01; Some t_2020_11_15;
                   None; Some t_2020_12_31; Some t_2020_12_31]);
      ("passenger_count", Int64 [Some 0; Some 2; Some 3; Some 1; None; Some 1]);
      ("trip_distance", Float64 [f_5_0; fzero; f_1_2; f_minus_2_5; f_5_0; S754_nan]);
      ("PULocationID", Int64 [Some 74; Some 41; Some 7; None; Some 166; Some 74]) ].

(** One trip of one passenger over a distance of -2.5. *)
Definition negative_distance : DataFrame :=
  mkframe [0]
    [ ("VendorID", Int64 [Some 2]);
      ("lpep_pickup_datetime", Datetime64 [Some t_2020_10_01]);
      ("passenger_count", Int64 [Some 1]);
      ("trip_distance", Float64 [f_minus_2_5]) ].

Definition negative_distance_output : DataFrame :=
  mkframe [0]
    [ ("vendor_id", Int64 [Some 2]);
      ("lpep_pickup_datetime", Datetime64 [Some t_2020_10_01]);
      ("passenger_count", Int64 [Some 1]);
      ("trip_distance", Float64 [f_minus_2_5]);
      ("lpep_pickup_date", DateObject [Some (Calendar.mkdate 2020 10 1)]) ].

(** A frame that already carries a column [lpep_pickup_date]. *)
Definition with_date_column : DataFrame :=
  mkframe [0]
    [ ("lpep_pickup_datetime", Datetime64 [Some t_2020_10_01]);
      ("passenger_count", Int64 [Some 1]);
      ("trip_distance", Float64 [f_5_0]);
      ("lpep_pickup_date", DateObject [Some (Calendar.mkdate 1999 1 1)]) ].

(** A frame whose pickup times were left as text. *)
Definition text_datetime : DataFrame :=
  mkframe [0]
    [ ("lpep_pickup_datetime", StrObject [Some "2020-10-01 00:30:00"]);
      ("passenger_count", Int64 [Some 1]);
      ("trip_distance", Float64 [f_5_0]) ].

(** A frame whose counts were left as text. *)
Definition text_counts : DataFrame :=
  mkframe [0; 1]
    [ ("lpep_pickup_datetime", Datetime64 [Some t_2020_10_01; None]);
      ("passenger_count", StrObject [Some "1"; None]);
      ("trip_distance", Float64 [f_5_0; f_1_2]) ].

(** Labels that only match after normalization. *)
Definition upper_case : DataFrame :=
  mkframe [7; 8]
    [ ("LPEP_PICKUP_DATETIME", Datetime64 [Some t_2020_10_01; Some t_2020_11_15]);
      ("Passenger_Count", Int64 [Some 1; Some 0]);
      ("Trip_Distance", Float64 [f_5_0; f_5_0]) ].

(** A frame with no column at all. *)
Definition no_columns : DataFrame := mkframe [0; 1] [].

(** Three resources of 2, 1 and 3 rows. *)
Definition month (ids : list (option Z)) (times : list (option Z))
    (counts : list (option Z)) (distances : list spec_float) : DataFrame :=
  mkframe (range_index (List.length ids))
    [ ("VendorID", Int64 ids);
      ("lpep_pickup_datetime", Datetime64 times);
      ("passenger_count", Int64 counts);
      ("trip_distance", Float64 distances) ].

Definition october : DataFrame :=
  month [Some 1; Some 2] [Some t_2020_10_01; Some t_2020_10_01]
        [Some 1; Some 0] [f_5_0; f_1_2].
Definition november : DataFrame :=
  month [None] [Some t_2020_11_15] [Some 3] [fzero].
Definition december : DataFrame :=
  month [Some 2; Some 2; Some 1] [Some t_2020_12_31; None; Some t_2020_12_31]
        [None; Some 2; Some 1] [f_minus_2_5; f_5_0; f_1_2].

(** The three months stacked. *)
Definition quarter : DataFrame :=
  mkframe [0; 1; 2; 3; 4; 5]
    [ ("VendorID", Int64 [Some 1; Some 2; None; Some 2; Some 2; Some 1]);
      ("lpep_pickup_datetime",
       Datetime64 [Some t_2020_10_01; Some t_2020_10_01; Some t_2020_11_15;
                   Some t_2020_12_31; None; Some t_2020_12_31]);
      ("passenger_count", Int64 [Some 1; Some 0; Some 3; None; Some 2; Some 1]);
      ("trip_distance", Float64 [f_5_0; f_1_2; fzero; f_minus_2_5; f_5_0; f_1_2]) ].

(** A [read_csv] serving the three months, and nothing else. *)
Definition serve (url sep compression : string)
    (dtype : list (string * Frame.dtype)) (dates : list string) : result DataFrame :=
  if String.eqb url (nth 0 Loader.url_list "") then Ok october
  else if String.eqb url (nth 1 Loader.url_list "") then Ok november
  else if String.eqb url (nth 2 Loader.url_list "") then Ok december
  else Raise ValueError.

(** October and December as before; November cannot be fetched. *)
Definition serve_without_november (url sep compression : string)
    (dtype : list (string * Frame.dtype)) (dates : list string) : result DataFrame :=
  if String.eqb url (nth 1 Loader.url_list "") then Raise ValueError
  else serve url sep compression dtype dates.

(** The same three months, and December under every other address. *)
Definition serve_any (url sep compression : string)
    (dtype : list (string * Frame.dtype)) (dates : list string) : result DataFrame :=
  match serve url sep compression dtype dates with
  | Ok df => Ok df
  | Raise _ => Ok december
  end.

End Samples.

(** * Properties *)

(** ** Column labels *)

Module LabelFacts.
Import Label.

Ltac bits c := destruct c as [[] [] [] [] [] [] [] []].

Lemma replace_ID_cons (c : ascii) (r : string) :
  replace_ID (String c r) =
  match r with
  | String d r' =>
      if (Ascii.eqb c "I" && Ascii.eqb d "D")%bool
      then "_id" ++ replace_ID r'
      else String c (replace_ID r)
  | EmptyString => String c EmptyString
  end.
Proof.
  destruct r as [|d r'].
  - bits c; reflexivity.
  - bits c; try reflexivity. bits d; reflexivity.
Qed.

Lemma prefix_ID_cons (c : ascii) (r : string) :
  String.prefix "ID" (String c r) =
  match r with
  | String d _ => (Ascii.eqb c "I" && Ascii.eqb d "D")%bool
  | EmptyString => false
  end.
Proof.
  cbn [String.prefix].
  destruct (ascii_dec "I" c) as [<-|Hc].
  - destruct r as [|d r']; [reflexivity|]. cbn [String.prefix].
    destruct (ascii_dec "D" d) as [<-|Hd]; [now destruct r'|].
    cbn. symmetry. apply Ascii.eqb_neq. congruence.
  - assert (Ascii.eqb c "I" = false) as -> by (apply Ascii.eqb_neq; congruence).
    destruct r; reflexivity.
Qed.

Lemma replace_from_0_cons (old new : string) (c : ascii) (s : string) :
  replace_from old new 0 (String c s) =
  if String.prefix old (String c s)
  then new ++ replace_from old new (String.length old - 1) s
  else String c (replace_from old new 0 s).
Proof. reflexivity. Qed.

(** The library scan and the two-letter rule agree on every string. *)
Lemma replace_from_ID (s : string) :
  replace_from "ID" "_id" 0 s = replace_ID s /\
  forall c, replace_from "ID" "_id" 0 (String c s) = replace_ID (String c s).
Proof.
  induction s as [|a s [IH0 IH1]].
  - split; [reflexivity|]. intro c.
    cbn [replace_from]. rewrite prefix_ID_cons, replace_ID_cons. reflexivity.
  - split; [apply IH1|]. intro c.
    rewrite replace_from_0_cons, prefix_ID_cons, (replace_ID_cons c).
    destruct (Ascii.eqb c "I" && Ascii.eqb a "D")%bool.
    + change (replace_from "ID" "_id" (String.length "ID" - 1) (String a s))
        with (replace_from "ID" "_id" 0 s).
      now rewrite IH0.
    + now rewrite IH1.
Qed.

Lemma contains_ID_cons (c : ascii) (r : string) :
  contains_ID (String c r) =
  match r with
  | String d _ => ((Ascii.eqb c "I" && Ascii.eqb d "D") || contains_ID r)%bool
  | EmptyString => false
  end.
Proof.
  destruct r as [|d r'].
  - bits c; reflexivity.
  - bits c; try reflexivity. bits d; reflexivity.
Qed.

(** After the replacement no occurrence of ID is left. *)
Lemma replace_ID_complete (s : string) :
  contains_ID (replace_ID s) = false /\
  forall c, contains_ID (replace_ID (String c s)) = false.
Proof.
  induction s as [|a s [IH0 IH1]].
  - split; [reflexivity|]. intro c. rewrite replace_ID_cons. apply contains_ID_cons.
  - split; [apply IH1|]. intro c. rewrite replace_ID_cons.
    destruct (Ascii.eqb c "I" && Ascii.eqb a "D")%bool eqn:Hit.
    + exact IH0.
    + rewrite contains_ID_cons. specialize (IH1 a).
      destruct (replace_ID (String a s)) as [|d r] eqn:E; [reflexivity|].
      rewrite IH1, orb_false_r.
      destruct (Ascii.eqb c "I"); [|reflexivity].
      cbn [andb] in Hit |- *.
      rewrite replace_ID_cons in E. destruct s as [|b s'].
      * injection E as <- _. exact Hit.
      * destruct (Ascii.eqb a "I" && Ascii.eqb b "D")%bool.
        -- injection E as <- _. reflexivity.
        -- injection E as <- _. exact Hit.
Qed.

Lemma str_replace_ID (s : string) : str_replace "ID" "_id" s = replace_ID s.
Proof. exact (proj1 (replace_from_ID s)). Qed.

Lemma str_replace_complete (s : string) :
  contains_ID (str_replace "ID" "_id" s) = false.
Proof. rewrite str_replace_ID. exact (proj1 (replace_ID_complete s)). Qed.

Lemma normalize_refines (s : string) : normalize s = normalize_spec s.
Proof. unfold normalize, normalize_spec. now rewrite str_replace_ID. Qed.

Lemma is_upper_lower_char (c : ascii) : is_upper (lower_char c) = false.
Proof. bits c; reflexivity. Qed.

Lemma no_upper_lower (s : string) : no_upper (lower s) = true.
Proof.
  induction s as [|c s IH]; cbn; [reflexivity|].
  now rewrite is_upper_lower_char, IH.
Qed.

Lemma lower_no_upper (s : string) : no_upper s = true -> lower s = s.
Proof.
  induction s as [|c s IH]; cbn; [reflexivity|].
  intros [Hc Hs]%andb_prop. unfold lower_char.
  destruct (is_upper c); [discriminate|]. now rewrite IH.
Qed.

Lemma is_upper_I : forall c, is_upper c = false -> Ascii.eqb c "I" = false.
Proof. intro c. bits c; vm_compute; congruence. Qed.

Lemma replace_ID_no_upper (s : string) : no_upper s = true -> replace_ID s = s.
Proof.
  induction s as [|c s IH]; [reflexivity|].
  cbn [no_upper]. intros [Hc Hs]%andb_prop.
  rewrite replace_ID_cons.
  apply negb_true_iff, is_upper_I in Hc. rewrite Hc. cbn [andb].
  destruct s; [reflexivity|]. now rewrite IH.
Qed.

Lemma normalize_no_upper (s : string) : no_upper (normalize s) = true.
Proof. apply no_upper_lower. Qed.

Lemma normalize_fixed (s : string) : no_upper s = true -> normalize s = s.
Proof.
  intro H. unfold normalize.
  now rewrite str_replace_ID, (replace_ID_no_upper _ H), (lower_no_upper _ H).
Qed.

End LabelFacts.

(** ** Calendar *)

Module CalendarFacts.
Import Calendar.

Example date_2020_10_01 :
  date_of_ns 1601512200000000000 = mkdate 2020 10 1.
Proof. reflexivity. Qed.

Example date_2020_12_31_last_ns :
  date_of_ns 1609459199999999999 = mkdate 2020 12 31.
Proof. reflexivity. Qed.

Example date_before_epoch : date_of_ns (-1) = mkdate 1969 12 31.
Proof. reflexivity. Qed.

Example date_leap_day : civil_from_days 18321 = mkdate 2020 2 29.
Proof. reflexivity. Qed.

Lemma civil_from_days_range (n : Z) :
  1 <= month (civil_from_days n) <= 12 /\ 1 <= day (civil_from_days n) <= 31.
Proof.
  unfold civil_from_days. cbn [month day].
  set (z := n + 719468).
  set (era := z / 146097).
  set (doe := z - era * 146097).
  assert (Hdoe : 0 <= doe <= 146096).
  { unfold doe, era. pose proof (Z.mod_pos_bound z 146097 ltac:(lia)).
    rewrite Z.mod_eq in H by lia. lia. }
  clearbody doe. clear z era.
  set (yoe := (doe - doe / 1460 + doe / 36524 - doe / 146096) / 365).
  set (doy := doe - (365 * yoe + yoe / 4 - yoe / 100)).
  assert (Hdoy : 0 <= doy <= 365).
  { unfold doy, yoe. Z.to_euclidean_division_equations. lia. }
  clearbody doy. clear yoe.
  destruct (Z.ltb_spec ((5 * doy + 2) / 153) 10);
    Z.to_euclidean_division_equations; lia.
Qed.

(** The date computed for a day number is the date of that day. *)
Lemma days_from_civil_from_days (n : Z) : days_from_civil (civil_from_days n) = n.
Proof.
  unfold civil_from_days, days_from_civil. cbn [year month day].
  set (z := n + 719468).
  set (era := z / 146097).
  set (doe := z - era * 146097).
  assert (Hdoe : 0 <= doe <= 146096).
  { unfold doe, era. pose proof (Z.mod_pos_bound z 146097 ltac:(lia)).
    rewrite Z.mod_eq in H by lia. lia. }
  assert (Hz : n = era * 146097 + doe - 719468) by (unfold doe, z; lia).
  clearbody doe era. clear z.
  set (yoe := (doe - doe / 1460 + doe / 36524 - doe / 146096) / 365).
  assert (Hyoe : 0 <= yoe <= 399).
  { unfold yoe. Z.to_euclidean_division_equations. lia. }
  set (doy := doe - (365 * yoe + yoe / 4 - yoe / 100)).
  assert (Hdoy : 0 <= doy <= 365).
  { unfold doy, yoe. Z.to_euclidean_division_equations. lia. }
  assert (Hdoe' : doe = yoe * 365 + yoe / 4 - yoe / 100 + doy) by (unfold doy; lia).
  clearbody doy. clearbody yoe.
  set (mp := (5 * doy + 2) / 153).
  assert (Hmp : 0 <= mp <= 11).
  { unfold mp. Z.to_euclidean_division_equations. lia. }
  assert (Hd : (153 * mp + 2) / 5 + (doy - (153 * mp + 2) / 5 + 1) - 1 = doy) by lia.
  clearbody mp.
  assert (Hera : (yoe + era * 400) / 400 = era).
  { rewrite Z.div_add by lia. rewrite Z.div_small by lia. lia. }
  destruct (Z.ltb_spec mp 10) as [Hlt|Hge].
  - destruct (Z.leb_spec (mp + 3) 2) as [?|_]; [lia|].
    rewrite Hera. replace (mp + 3 - 3) with mp by lia.
    replace (yoe + era * 400 - era * 400) with yoe by lia.
    rewrite Hd. lia.
  - destruct (Z.leb_spec (mp - 9) 2) as [_|?]; [|lia].
    replace (yoe + era * 400 + 1 - 1) with (yoe + era * 400) by lia.
    rewrite Hera. replace (mp - 9 + 9) with mp by lia.
    replace (yoe + era * 400 - era * 400) with yoe by lia.
    rewrite Hd. lia.
Qed.

End CalendarFacts.

(** ** Frames *)

Module FrameFacts.
Import Frame.

Lemma combine_fst_snd {A B C} (f : A -> C) (l : list (A * B)) :
  combine (map f (map fst l)) (map snd l) = map (fun p => (f (fst p), snd p)) l.
Proof.
  induction l as [|[a b] l IH]; cbn; [reflexivity|]. now rewrite IH.
Qed.

Lemma length_compress_le {A} (keep : list bool) (l : list A) :
  (List.length (compress keep l) <= List.length l)%nat.
Proof.
  revert l. induction keep as [|b keep IH]; intros [|x l]; cbn; try lia.
  - destruct b; cbn; lia.
  - destruct b; cbn; specialize (IH l); lia.
Qed.

Lemma compress_map {A B} (f : A -> B) (keep : list bool) (l : list A) :
  compress keep (map f l) = map f (compress keep l).
Proof.
  revert l. induction keep as [|b keep IH]; intros [|x l]; cbn; try reflexivity.
  - now destruct b.
  - destruct b; cbn; now rewrite IH.
Qed.

Lemma length_map2 {A B C} (f : A -> B -> C) (l : list A) (l' : list B) :
  List.length (map2 f l l') = Nat.min (List.length l) (List.length l').
Proof.
  revert l'. induction l as [|a l IH]; intros [|b l']; cbn; try reflexivity.
  now rewrite IH.
Qed.


(** Comparing a mask with 0 leaves it as it is. *)
Lemma bool_gt0_id (b : bool) : bool_gt0 b = b.
Proof. now destruct b. Qed.

Lemma to_indexer_gt0 (m : Mask) : to_indexer (mask_gt0 m) = to_indexer m.
Proof.
  destruct m as [v|v]; cbn.
  - rewrite map_map. apply map_ext. intros [[]|]; reflexivity.
  - rewrite <- (map_id v) at 2. apply map_ext, bool_gt0_id.
Qed.

Lemma labelled_nil (key : string) (df : DataFrame) :
  labelled key df = [] <-> ~ In key (columns df).
Proof.
  unfold labelled, columns. destruct df as [ix bl]. cbn.
  induction bl as [|[n s] bl IH]; cbn.
  - tauto.
  - destruct (String.eqb_spec n key) as [->|Hn]; cbn.
    + split; [discriminate|]. intros H. exfalso. apply H. now left.
    + rewrite IH. split; [intros H [?|?]; [congruence|tauto]|tauto].
Qed.

Lemma existsb_eqb_In (key : string) (l : list string) :
  existsb (String.eqb key) l = true <-> In key l.
Proof.
  rewrite existsb_exists. split.
  - intros [x [Hx ->%String.eqb_eq]]. exact Hx.
  - intro H. exists key. split; [exact H|apply String.eqb_refl].
Qed.

(** Assigning one label leaves the columns under every other label. *)
Lemma labelled_setitem_other (key k : string) (s : Series) (df : DataFrame) :
  k <> key -> labelled k (setitem key s df) = labelled k df.
Proof.
  intro Hk. unfold setitem, labelled.
  destruct (existsb (String.eqb key) (columns df)); cbn.
  - induction (blocks df) as [|[n c] bl IH]; cbn; [reflexivity|].
    destruct (String.eqb_spec n key) as [->|Hn]; cbn.
    + destruct (String.eqb_spec key k) as [->|_]; [congruence|exact IH].
    + destruct (String.eqb n k); cbn; now rewrite IH.
  - rewrite filter_app, map_app. cbn.
    destruct (String.eqb_spec key k) as [->|_]; [congruence|].
    cbn. apply app_nil_r.
Qed.

Lemma nrows_setitem (key : string) (s : Series) (df : DataFrame) :
  nrows (setitem key s df) = nrows df.
Proof. unfold setitem. now destruct (existsb _ _). Qed.

Lemma index_setitem (key : string) (s : Series) (df : DataFrame) :
  index (setitem key s df) = index df.
Proof. unfold setitem. now destruct (existsb _ _). Qed.

(** Every column under the assigned label holds the assigned values. *)
Lemma setitem_holds (key : string) (s c : Series) (df : DataFrame) :
  In (key, c) (blocks (setitem key s df)) -> c = s.
Proof.
  unfold setitem. destruct (existsb (String.eqb key) (columns df)) eqn:E; cbn.
  - rewrite in_map_iff. intros [[n c'] [Heq _]]. cbn in Heq.
    destruct (String.eqb_spec n key); inversion Heq; subst; congruence.
  - rewrite in_app_iff. intros [H|[H|[]]]; [|congruence].
    exfalso. apply (in_map fst) in H. cbn in H.
    apply existsb_eqb_In in H. unfold columns in E. congruence.
Qed.

Lemma setitem_present (key : string) (s : Series) (df : DataFrame) :
  In key (columns (setitem key s df)).
Proof.
  unfold setitem, columns. destruct (existsb (String.eqb key) (map fst (blocks df))) eqn:E; cbn.
  - apply existsb_eqb_In in E. rewrite map_map.
    apply in_map_iff in E as [[n c] [Hn Hin]]. cbn in Hn. subst n.
    apply in_map_iff. exists (key, c). split; [|exact Hin].
    cbn. now rewrite String.eqb_refl.
  - rewrite map_app, in_app_iff. right. now left.
Qed.

Lemma setitem_absent (key : string) (s : Series) (df : DataFrame) :
  ~ In key (columns df) ->
  setitem key s df = mkframe (index df) (blocks df ++ [(key, s)]).
Proof.
  intro H. unfold setitem.
  destruct (existsb (String.eqb key) (columns df)) eqn:E; [|reflexivity].
  apply existsb_eqb_In in E. contradiction.
Qed.

Lemma series_gt0_raises (s : Series) (e : exn) :
  series_gt0 s = Raise e -> e = TypeError.
Proof.
  destruct s as [v|v|v|v|v]; cbn; try discriminate; try congruence;
    destruct (forallb is_null v); congruence.
Qed.

Lemma gt0_raises (x : item) (e : exn) : gt0 x = Raise e -> e = TypeError.
Proof.
  destruct x as [s|cols]; cbn.
  - destruct (series_gt0 s) eqn:E; [discriminate|].
    intros [= <-]. eapply series_gt0_raises, E.
  - induction cols as [|c cols IH]; cbn; [discriminate|].
    destruct (series_gt0 c) eqn:E; cbn.
    + destruct (mapM series_gt0 cols); cbn in *; [discriminate|exact IH].
    + intros [= <-]. eapply series_gt0_raises, E.
Qed.

Lemma getitem_raises (df : DataFrame) (key : string) (e : exn) :
  getitem df key = Raise e -> e = KeyError key.
Proof.
  unfold getitem. destruct (labelled key df) as [|s [|s' l]]; congruence.
Qed.

Lemma getitem_absent (df : DataFrame) (key : string) :
  ~ In key (columns df) -> getitem df key = Raise (KeyError key).
Proof.
  intro H. apply labelled_nil in H. unfold getitem. now rewrite H.
Qed.

Lemma dt_date_raises (x : item) (e : exn) : dt_date x = Raise e -> e = AttributeError.
Proof. destruct x as [[v|v|v|v|v]|cols]; cbn; congruence. Qed.

End FrameFacts.

(** ** The transformer *)

Module TransformerFacts.
Import Frame Transformer Contract FrameFacts.

Lemma set_columns_normalize (df : DataFrame) :
  set_columns (map Label.lower (map (Label.str_replace "ID" "_id") (columns df))) df
  = Ok (normalize_columns df).
Proof.
  unfold set_columns, columns, normalize_columns.
  rewrite !length_map, Nat.eqb_refl, map_map.
  f_equal. f_equal. apply combine_fst_snd.
Qed.

(** The block run on [df] returns what the three steps return one after
    the other, and leaves [data] as steps 1 and 2 made it. *)
Lemma transform_steps (args : list pyobj) (kwargs : list (string * pyobj))
    (df : DataFrame) :
  transform args kwargs df = (three_steps df, mutated df).
Proof.
  unfold transform, bind, read, update, lift, three_steps, mutated.
  cbn beta iota. rewrite set_columns_normalize.
  unfold add_pickup_date, row_filter, filter_mask.
  destruct (getitem (normalize_columns df) "lpep_pickup_datetime") as [pickup|e];
    cbn; [|reflexivity].
  destruct (dt_date pickup) as [dates|e]; cbn; [|reflexivity].
  set (df2 := setitem "lpep_pickup_date" dates (normalize_columns df)).
  destruct (getitem df2 "passenger_count") as [pc|e]; cbn; [|reflexivity].
  destruct (gt0 pc) as [pos|e]; cbn; [|reflexivity].
  destruct (getitem df2 "trip_distance") as [td|e]; cbn; [|reflexivity].
  destruct (and_ pos td) as [both|e]; cbn; reflexivity.
Qed.

Lemma transform_output_steps (df : DataFrame) : transform_output df = three_steps df.
Proof. unfold transform_output. now rewrite transform_steps. Qed.

Lemma transform_output_any_args (args : list pyobj) (kwargs : list (string * pyobj))
    (df : DataFrame) :
  fst (transform args kwargs df) = transform_output df.
Proof. unfold transform_output. now rewrite !transform_steps. Qed.

Lemma columns_normalize (df : DataFrame) :
  columns (normalize_columns df) = normalized_columns df.
Proof.
  unfold normalized_columns, normalize_columns, columns. cbn [blocks].
  rewrite !map_map. reflexivity.
Qed.

Lemma columns_take_rows (keep : list bool) (df : DataFrame) :
  columns (take_rows keep df) = columns df.
Proof. unfold columns, take_rows. cbn [blocks]. rewrite map_map. reflexivity. Qed.

Lemma labelled_take_rows (keep : list bool) (key : string) (df : DataFrame) :
  labelled key (take_rows keep df) = map (series_compress keep) (labelled key df).
Proof.
  unfold labelled, take_rows. cbn.
  induction (blocks df) as [|[n s] bl IH]; cbn; [reflexivity|].
  destruct (String.eqb n key); cbn; now rewrite IH.
Qed.

(** What a successful run went through: a single datetime column, the
    frame [df2] of steps 1 and 2, and a mask over all its rows. *)
Lemma three_steps_inv (df out : DataFrame) :
  three_steps df = Ok out ->
  exists times m,
    labelled "lpep_pickup_datetime" (normalize_columns df) = [Datetime64 times] /\
    let dates := DateObject (map (option_map Calendar.date_of_ns) times) in
    let df2 := setitem "lpep_pickup_date" dates (normalize_columns df) in
    filter_mask df2 = Ok m /\
    List.length (to_indexer m) = nrows df /\
    out = take_rows (to_indexer m) df2.
Proof.
  unfold three_steps, add_pickup_date, getitem.
  destruct (labelled "lpep_pickup_datetime" (normalize_columns df))
    as [|s [|s' l]] eqn:E; cbn; try discriminate.
  destruct s as [v|v|v|times|v]; cbn; try discriminate.
  unfold row_filter.
  destruct (filter_mask _) as [m|e] eqn:Em; cbn; [|discriminate].
  unfold getitem_bool. rewrite nrows_setitem.
  change (nrows (normalize_columns df)) with (nrows df).
  destruct (Nat.eqb_spec (List.length (to_indexer m)) (nrows df)) as [Hlen|_];
    [|discriminate].
  intros [= <-]. exists times, m. cbn zeta. auto.
Qed.

Lemma getitem_ok_present (df : DataFrame) (key : string) (x : item) :
  getitem df key = Ok x -> In key (columns df).
Proof.
  intro H. destruct (in_dec string_dec key (columns df)) as [Hin|Hout]; [exact Hin|].
  rewrite (getitem_absent _ _ Hout) in H. discriminate.
Qed.

Lemma filter_mask_reads (df : DataFrame) (m : Mask) :
  filter_mask df = Ok m ->
  In "passenger_count" (columns df) /\ In "trip_distance" (columns df).
Proof.
  unfold filter_mask.
  destruct (getitem df "passenger_count") as [pc|e] eqn:Epc; cbn; [|discriminate].
  destruct (gt0 pc) as [pos|e]; cbn; [|discriminate].
  destruct (getitem df "trip_distance") as [td|e] eqn:Etd; cbn; [|discriminate].
  intros _. split; eapply getitem_ok_present; eassumption.
Qed.

Lemma labelled_present (key : string) (df : DataFrame) :
  labelled key df <> [] <-> In key (columns df).
Proof.
  pose proof (labelled_nil key df) as H.
  destruct (in_dec string_dec key (columns df)) as [Hin|Hout]; split; intro H'; tauto.
Qed.

Lemma columns_setitem_other (key k : string) (s : Series) (df : DataFrame) :
  k <> key -> In k (columns (setitem key s df)) <-> In k (columns df).
Proof.
  intro Hk. rewrite <- !labelled_present. now rewrite labelled_setitem_other.
Qed.

Lemma columns_setitem (key : string) (s : Series) (df : DataFrame) :
  columns (setitem key s df) =
  (columns df ++ if existsb (String.eqb key) (columns df) then [] else [key])%list.
Proof.
  unfold setitem. destruct (existsb (String.eqb key) (columns df)); unfold columns; cbn [blocks].
  - rewrite app_nil_r, map_map. apply map_ext. intros [n c]. cbn.
    now destruct (String.eqb n key).
  - now rewrite map_app.
Qed.

Lemma wf_labelled (df : DataFrame) (key : string) (s : Series) :
  wf df -> In s (labelled key df) -> size s = nrows df.
Proof.
  unfold wf, sized, labelled. intros Hwf Hin.
  apply in_map_iff in Hin as [[n c] [<- Hin]].
  apply filter_In in Hin as [Hin _].
  rewrite Forall_forall in Hwf. apply (Hwf _ Hin).
Qed.

Lemma wf_normalize (df : DataFrame) : wf df -> wf (normalize_columns df).
Proof.
  unfold wf, sized, normalize_columns. cbn [blocks]. intro H.
  rewrite Forall_map. exact H.
Qed.

(** The mask of a frame with an integer count and a float distance. *)
Lemma filter_mask_kept (df : DataFrame) (p : list (option Z)) (t : list spec_float) :
  labelled "passenger_count" df = [Int64 p] ->
  labelled "trip_distance" df = [Float64 t] ->
  exists m, filter_mask df = Ok m /\ to_indexer m = map2 kept p t.
Proof.
  intros Hp Ht. unfold filter_mask, getitem. rewrite Hp, Ht. cbn.
  eexists. split; [reflexivity|]. cbn.
  clear. revert t. induction p as [|o p IH]; intros [|x t]; cbn; try reflexivity.
  rewrite IH. f_equal.
  destruct o as [z|]; cbn; [|now destruct (truthy x)].
  destruct (0 <? z); cbn; [|reflexivity].
  now destruct (truthy x).
Qed.

(** *** Order of the steps *)

(** C5. The block is the three steps in the order (1) normalization of
    the labels, (2) derivation of [lpep_pickup_date], (3) row filter, each
    working on the frame the step before produced; steps 1 and 2 are
    made on [data] itself. So the columns are looked up under their
    normalized labels: a run that succeeds found all three among the
    normalized labels, and the datetime column of step 2 is looked up
    first, before the columns of the filter. *)
Theorem transform_in_order :
  (forall args kwargs df,
     transform args kwargs df =
     (rbind (add_pickup_date (normalize_columns df)) row_filter, mutated df)) /\
  (forall df out,
     transform_output df = Ok out ->
     forall k, In k required -> In k (normalized_columns df)) /\
  (forall df,
     ~ In "lpep_pickup_datetime" (normalized_columns df) ->
     transform_output df = Raise (KeyError "lpep_pickup_datetime")).
Proof.
  split; [|split].
  - intros. apply transform_steps.
  - intros df out H k Hk. rewrite transform_output_steps in H.
    apply three_steps_inv in H as (times & m & Ht & Hm & _ & _).
    apply filter_mask_reads in Hm as [Hpc Htd].
    apply columns_setitem_other in Hpc; [|discriminate].
    apply columns_setitem_other in Htd; [|discriminate].
    rewrite columns_normalize in Hpc, Htd.
    destruct Hk as [<-|[<-|[<-|[]]]]; [exact Hpc|exact Htd|].
    rewrite <- columns_normalize. apply labelled_present. now rewrite Ht.
  - intros df H. rewrite transform_output_steps.
    unfold three_steps, add_pickup_date.
    rewrite getitem_absent; [reflexivity|]. now rewrite columns_normalize.
Qed.

Lemma transform_in_order_witness :
  In "trip_distance" (normalized_columns Samples.upper_case) /\
  ~ In "trip_distance" (columns Samples.upper_case).
Proof.
  split.
  - apply (proj1 (proj2 transform_in_order) Samples.upper_case
             (take_rows [true; false] (mutated Samples.upper_case))).
    + reflexivity.
    + cbn. tauto.
  - cbn. intros [H|[H|[H|[]]]]; discriminate.
Defined.

(** *** Row count *)

(** C7. The output of a run has at most as many rows as its input. *)
Theorem transform_row_count (df out : DataFrame) :
  transform_output df = Ok out -> (nrows out <= nrows df)%nat.
Proof.
  rewrite transform_output_steps. intro H.
  apply three_steps_inv in H as (times & m & _ & _ & _ & ->).
  unfold nrows, take_rows. cbn [index].
  rewrite index_setitem. apply length_compress_le.
Qed.

Lemma transform_row_count_witness :
  (nrows (take_rows [false; false; true; true; false; true] (mutated Samples.trips))
   <= nrows Samples.trips)%nat.
Proof. apply transform_row_count. reflexivity. Defined.

(** *** The derived date *)



(** *** Column labels of the output *)

Lemma columns_of_output (df out : DataFrame) :
  transform_output df = Ok out ->
  columns out =
  (normalized_columns df ++
   if existsb (String.eqb "lpep_pickup_date") (normalized_columns df)
   then [] else ["lpep_pickup_date"])%list.
Proof.
  intro H. rewrite transform_output_steps in H.
  apply three_steps_inv in H as (times & m & _ & _ & _ & ->).
  now rewrite columns_take_rows, columns_setitem, columns_normalize.
Qed.

Lemma vendor_id_in_output (df out : DataFrame) :
  transform_output df = Ok out ->
  In "VendorID" (columns df) -> In "vendor_id" (columns out).
Proof.
  intros H Hin. rewrite (columns_of_output _ _ H).
  apply in_or_app. left.
  change "vendor_id" with (Label.normalize "VendorID").
  unfold normalized_columns. now apply in_map.
Qed.

(** C2. Normalizing a label replaces every occurrence of the letters ID
    by _id (none is left afterwards) and then lower-cases the whole label,
    also inside a longer word; the labels of the output
    of a run are the normalized labels of the input, in order (followed by
    [lpep_pickup_date] unless it is already among them). In particular an
    input column [VendorID] gives an output column [vendor_id], and
    [PULocationID] becomes [pulocation_id]. *)
Theorem column_labels_normalized :
  (forall name, Label.normalize name = Label.lower (Label.replace_ID name)) /\
  (forall name, Label.contains_ID (Label.str_replace "ID" "_id" name) = false) /\
  (forall df out,
     transform_output df = Ok out ->
     columns out =
     (normalized_columns df ++
      if existsb (String.eqb "lpep_pickup_date") (normalized_columns df)
      then [] else ["lpep_pickup_date"])%list) /\
  (forall df out,
     transform_output df = Ok out ->
     In "VendorID" (columns df) -> In "vendor_id" (columns out)) /\
  Label.normalize "VendorID" = "vendor_id" /\
  Label.normalize "PULocationID" = "pulocation_id".
Proof.
  split; [|split; [|split; [|split; [|split]]]].
  - intro name. apply LabelFacts.normalize_refines.
  - exact LabelFacts.str_replace_complete.
  - exact columns_of_output.
  - exact vendor_id_in_output.
  - reflexivity.
  - reflexivity.
Qed.

Lemma column_labels_normalized_witness :
  In "vendor_id"
     (columns (take_rows [false; false; true; true; false; true] (mutated Samples.trips))).
Proof.
  apply (proj1 (proj2 (proj2 (proj2 column_labels_normalized))) Samples.trips).
  - reflexivity.
  - cbn. tauto.
Defined.

(** C10. Normalizing a label twice gives what normalizing it once gives:
    a normalized label has no capital letter, so it has no occurrence of
    ID left to replace and nothing left to lower-case. *)
Theorem normalize_idempotent (s : string) :
  Label.normalize (Label.normalize s) = Label.normalize s /\
  Label.no_upper (Label.normalize s) = true /\
  Label.str_replace "ID" "_id" (Label.normalize s) = Label.normalize s.
Proof.
  pose proof (LabelFacts.normalize_no_upper s) as H.
  split; [|split].
  - now apply LabelFacts.normalize_fixed.
  - exact H.
  - rewrite LabelFacts.str_replace_ID. now apply LabelFacts.replace_ID_no_upper.
Qed.

(** *** Frame of the output *)

Lemma transform_with_date_column :
  transform_output Samples.with_date_column =
  Ok (mkframe [0]
        [ ("lpep_pickup_datetime", Datetime64 [Some Samples.t_2020_10_01]);
          ("passenger_count", Int64 [Some 1]);
          ("trip_distance", Float64 [Samples.f_5_0]);
          ("lpep_pickup_date", DateObject [Some (Calendar.mkdate 2020 10 1)]) ]).
Proof. reflexivity. Qed.

(** C6, as stated, fails on a frame that already has a column
    [lpep_pickup_date]: the run adds no column and overwrites that one. *)
Lemma frame_claim_fails : ~ frame_claim Samples.with_date_column.
Proof.
  intro H. specialize (H _ transform_with_date_column).
  destruct H as (keep & dates & _ & _ & Hb).
  apply (f_equal (@List.length _)) in Hb.
  rewrite length_app, length_map in Hb. cbn in Hb. lia.
Qed.

(** C6, amended. When no normalized label of the input is
    [lpep_pickup_date], the output of a run has the columns of the input
    under their normalized labels, in the same order, plus exactly one
    further column [lpep_pickup_date]; its rows are rows of the input,
    selected in order, and in them the values of the columns of the input
    are unchanged. *)
Theorem transform_frame (df out : DataFrame) :
  transform_output df = Ok out ->
  ~ In "lpep_pickup_date" (normalized_columns df) ->
  framed df out.
Proof.
  rewrite transform_output_steps. intros H Hfresh.
  apply three_steps_inv in H as (times & m & _ & _ & Hlen & ->).
  rewrite <- columns_normalize in Hfresh.
  rewrite (setitem_absent _ _ _ Hfresh).
  exists (to_indexer m), (series_compress (to_indexer m)
                            (DateObject (map (option_map Calendar.date_of_ns) times))).
  split; [exact Hlen|]. split; [reflexivity|].
  unfold take_rows, normalize_columns. cbn [blocks index].
  rewrite map_app, map_map. reflexivity.
Qed.

Lemma transform_frame_witness :
  framed Samples.trips
    (take_rows [false; false; true; true; false; true] (mutated Samples.trips)).
Proof.
  apply transform_frame.
  - reflexivity.
  - cbn. intros [H|[H|[H|[H|[H|[]]]]]]; discriminate.
Defined.

(** *** Errors *)

Lemma dtype_datetime (s : Series) :
  dtype_of s = datetime64_ns -> exists v, s = Datetime64 v.
Proof. destruct s as [v|v|v|v|v]; try discriminate. now exists v. Qed.

Lemma dtype_int (s : Series) : dtype_of s = Int64Dtype -> exists v, s = Int64 v.
Proof. destruct s as [v|v|v|v|v]; try discriminate. now exists v. Qed.

Lemma dtype_float (s : Series) : dtype_of s = float64 -> exists v, s = Float64 v.
Proof. destruct s as [v|v|v|v|v]; try discriminate. now exists v. Qed.

Lemma missing_column_raises (df : DataFrame) (k : string) :
  In k required -> ~ In k (normalized_columns df) -> raises (transform_output df).
Proof.
  intros Hk Hout. rewrite transform_output_steps.
  unfold three_steps, add_pickup_date.
  destruct (getitem (normalize_columns df) "lpep_pickup_datetime") as [pickup|e] eqn:Ed.
  2:{ apply getitem_raises in Ed. subst e. cbn. eexists. split; [reflexivity|discriminate]. }
  cbn. destruct (dt_date pickup) as [dates|e] eqn:Edt.
  2:{ apply dt_date_raises in Edt. subst e. cbn. eexists. split; [reflexivity|discriminate]. }
  cbn. set (df2 := setitem "lpep_pickup_date" dates (normalize_columns df)).
  unfold row_filter, filter_mask.
  destruct Hk as [<-|[<-|[<-|[]]]].
  - rewrite getitem_absent.
    + cbn. eexists. split; [reflexivity|discriminate].
    + unfold df2. rewrite columns_setitem_other by discriminate.
      now rewrite columns_normalize.
  - destruct (getitem df2 "passenger_count") as [pc|e] eqn:Epc.
    2:{ apply getitem_raises in Epc. subst e. cbn. eexists. split; [reflexivity|discriminate]. }
    cbn. destruct (gt0 pc) as [pos|e] eqn:Eg.
    2:{ apply gt0_raises in Eg. subst e. cbn. eexists. split; [reflexivity|discriminate]. }
    cbn. rewrite getitem_absent.
    + cbn. eexists. split; [reflexivity|discriminate].
    + unfold df2. rewrite columns_setitem_other by discriminate.
      now rewrite columns_normalize.
  - apply getitem_ok_present in Ed. rewrite columns_normalize in Ed. contradiction.
Qed.

Lemma typed_columns_succeed (df : DataFrame) :
  wf df ->
  has_column df "lpep_pickup_datetime" datetime64_ns ->
  has_column df "passenger_count" Int64Dtype ->
  has_column df "trip_distance" float64 ->
  exists out, transform_output df = Ok out.
Proof.
  intros Hwf (sd & Hd & Td) (sp & Hp & Tp) (st & Ht & Tt).
  apply dtype_datetime in Td as [times ->].
  apply dtype_int in Tp as [p ->].
  apply dtype_float in Tt as [t ->].
  rewrite transform_output_steps. unfold three_steps, add_pickup_date, getitem.
  rewrite Hd. cbn.
  set (df2 := setitem "lpep_pickup_date" _ (normalize_columns df)).
  assert (Hp2 : labelled "passenger_count" df2 = [Int64 p])
    by (unfold df2; now rewrite labelled_setitem_other by discriminate).
  assert (Ht2 : labelled "trip_distance" df2 = [Float64 t])
    by (unfold df2; now rewrite labelled_setitem_other by discriminate).
  destruct (filter_mask_kept df2 p t Hp2 Ht2) as (m & Hm & Hix).
  unfold row_filter. rewrite Hm. cbn. unfold getitem_bool.
  apply wf_normalize in Hwf.
  assert (Lp : size (Int64 p) = nrows (normalize_columns df))
    by (apply (wf_labelled _ "passenger_count"); [exact Hwf|rewrite Hp; now left]).
  assert (Lt : size (Float64 t) = nrows (normalize_columns df))
    by (apply (wf_labelled _ "trip_distance"); [exact Hwf|rewrite Ht; now left]).
  change (List.length p = nrows (normalize_columns df)) in Lp.
  change (List.length t = nrows (normalize_columns df)) in Lt.
  assert (Hlen : List.length (to_indexer m) = nrows df2).
  { rewrite Hix, length_map2. unfold df2. rewrite nrows_setitem. lia. }
  rewrite Hlen, Nat.eqb_refl. eexists. reflexivity.
Qed.

(** C8, as stated, fails on a frame that has the three columns but holds
    its pickup times as text: [.dt] is refused. *)
Lemma schema_claim_fails : ~ schema_claim Samples.text_datetime.
Proof.
  intros [_ H].
  assert (Hall : forall k, In k required -> In k (normalized_columns Samples.text_datetime)).
  { intros k [<-|[<-|[<-|[]]]]; cbn; tauto. }
  specialize (H Hall). discriminate H.
Qed.

(** C8, amended. A frame lacking, after normalization of its labels, any
    of [passenger_count], [trip_distance], [lpep_pickup_datetime] makes
    the run raise an exception; the run succeeds on every frame in which
    each of the three labels names exactly one column, a timestamp column
    for [lpep_pickup_datetime], a nullable integer column for
    [passenger_count] and a float column for [trip_distance]. *)
Theorem transform_schema_errors :
  (forall df k,
     In k required -> ~ In k (normalized_columns df) ->
     raises (transform_output df)) /\
  (forall df,
     wf df ->
     has_column df "lpep_pickup_datetime" datetime64_ns ->
     has_column df "passenger_count" Int64Dtype ->
     has_column df "trip_distance" float64 ->
     exists out, transform_output df = Ok out).
Proof. split; [exact missing_column_raises|exact typed_columns_succeed]. Qed.

Lemma transform_schema_errors_witness :
  raises (transform_output Samples.no_columns) /\
  exists out, transform_output Samples.trips = Ok out.
Proof.
  split.
  - apply (proj1 transform_schema_errors Samples.no_columns "trip_distance").
    + cbn. tauto.
    + cbn. tauto.
  - apply (proj2 transform_schema_errors Samples.trips).
    + repeat constructor.
    + eexists. split; reflexivity.
    + eexists. split; reflexivity.
    + eexists. split; reflexivity.
Defined.

Example text_datetime_raises :
  transform_output Samples.text_datetime = Raise AttributeError.
Proof. reflexivity. Qed.

(** *** The row filter *)

Lemma kept_of_positive (count : option Z) (distance : spec_float) :
  positive_int count -> positive_float distance -> kept count distance = true.
Proof.
  intros (z & -> & Hz) Hd. unfold kept.
  apply Z.ltb_lt in Hz. rewrite Hz. cbn.
  destruct distance as [sg|sg| |sg mant ex]; try reflexivity.
  destruct sg; discriminate Hd.
Qed.

Lemma kept_inv (count : option Z) (distance : spec_float) :
  kept count distance = true -> positive_int count /\ truthy distance = true.
Proof.
  unfold kept. destruct count as [z|]; [|discriminate].
  intros [Hz Hd]%andb_prop. split; [|exact Hd].
  exists z. split; [reflexivity|now apply Z.ltb_lt].
Qed.

Lemma compress_kept_counts (p : list (option Z)) (t : list spec_float) :
  Forall positive_int (compress (map2 kept p t) p).
Proof.
  revert t. induction p as [|o p IH]; intros [|x t]; cbn; try constructor.
  destruct (kept o x) eqn:E; [|apply IH].
  constructor; [apply (kept_inv _ _ E)|apply IH].
Qed.

Lemma compress_kept_distances (p : list (option Z)) (t : list spec_float) :
  Forall (fun x => truthy x = true) (compress (map2 kept p t) t).
Proof.
  revert t. induction p as [|o p IH]; intros [|x t]; cbn; try constructor.
  destruct (kept o x) eqn:E; [|apply IH].
  constructor; [apply (kept_inv _ _ E)|apply IH].
Qed.

(** On a frame with one integer [passenger_count] and one float
    [trip_distance], the output consists of the rows with a count above
    zero and a distance other than zero. *)
Lemma transform_keeps (df out : DataFrame) (p : list (option Z)) (t : list spec_float) :
  transform_output df = Ok out ->
  labelled "passenger_count" (normalize_columns df) = [Int64 p] ->
  labelled "trip_distance" (normalize_columns df) = [Float64 t] ->
  out = take_rows (map2 kept p t) (mutated df) /\
  labelled "passenger_count" out = [Int64 (compress (map2 kept p t) p)] /\
  labelled "trip_distance" out = [Float64 (compress (map2 kept p t) t)].
Proof.
  rewrite transform_output_steps. intros H Hp Ht.
  pose proof H as H'.
  apply three_steps_inv in H' as (times & m & Hd & Hm & _ & ->).
  set (df2 := setitem "lpep_pickup_date" _ (normalize_columns df)) in *.
  assert (Hp2 : labelled "passenger_count" df2 = [Int64 p])
    by (unfold df2; now rewrite labelled_setitem_other by discriminate).
  assert (Ht2 : labelled "trip_distance" df2 = [Float64 t])
    by (unfold df2; now rewrite labelled_setitem_other by discriminate).
  destruct (filter_mask_kept df2 p t Hp2 Ht2) as (m' & Hm' & Hix).
  assert (m' = m) as -> by congruence.
  assert (Hmut : mutated df = df2).
  { unfold mutated, add_pickup_date, getitem. rewrite Hd. reflexivity. }
  rewrite Hmut, Hix, !labelled_take_rows, Hp2, Ht2. auto.
Qed.

(** C1 at a trip of one passenger over a distance of -2.5: the row is
    retained although its distance is not above zero. The conjunction
    [&] is applied to the distance itself, and the comparison with 0 to
    the result of the conjunction. *)
Theorem negative_distance_retained :
  transform_output Samples.negative_distance = Ok Samples.negative_distance_output /\
  ~ retained_positive Samples.negative_distance_output.
Proof.
  split; [reflexivity|].
  intro H. destruct (H [Some 1] [Samples.f_minus_2_5] eq_refl eq_refl) as [_ Hd].
  inversion Hd as [|x l Hx _]. discriminate Hx.
Qed.

(** The example scenario: a zero count, a zero distance and a valid trip. *)
Example scenario_keeps_third_row :
  let df := mkframe [0; 1; 2]
              [ ("lpep_pickup_datetime",
                 Datetime64 [Some Samples.t_2020_10_01; Some Samples.t_2020_10_01;
                             Some Samples.t_2020_10_01]);
                ("passenger_count", Int64 [Some 0; Some 2; Some 3]);
                ("trip_distance", Float64 [Samples.f_5_0; fzero; Samples.f_1_2]) ] in
  option_map index (match transform_output df with Ok out => Some out | Raise _ => None end)
  = Some [2].
Proof. reflexivity. Qed.

(** *** The paired test *)

Lemma count_true_isin_zero_counts (v : list (option Z)) :
  Forall positive_int v -> count_true (isin_zero (Int64 v)) = 0%nat.
Proof.
  unfold count_true. induction 1 as [|o v (z & -> & Hz) _ IH]; cbn; [reflexivity|].
  destruct (Z.eqb_spec z 0); [lia|exact IH].
Qed.

Lemma count_true_isin_zero_distances (v : list spec_float) :
  Forall (fun x => truthy x = true) v -> count_true (isin_zero (Float64 v)) = 0%nat.
Proof.
  unfold count_true. induction 1 as [|x v Hx _ IH]; cbn; [reflexivity|].
  destruct x as [sg|sg| |sg mant ex]; try discriminate Hx; try destruct sg; exact IH.
Qed.

(** The output of a run on a frame of the declared dtypes that has a
    column [VendorID] passes [test_output]: no zero count and no zero
    distance is left. *)
Lemma transform_passes_test (df out : DataFrame) (p : list (option Z)) (t : list spec_float) :
  transform_output df = Ok out ->
  labelled "passenger_count" (normalize_columns df) = [Int64 p] ->
  labelled "trip_distance" (normalize_columns df) = [Float64 t] ->
  In "VendorID" (columns df) ->
  test_output (Some out) = Ok tt.
Proof.
  intros H Hp Ht Hv.
  pose proof (vendor_id_in_output df out H Hv) as Hid.
  destruct (transform_keeps df out p t H Hp Ht) as (_ & Hp' & Ht').
  unfold test_output. apply existsb_eqb_In in Hid. rewrite Hid. cbn [assert_ rbind].
  unfold no_zero, getitem. rewrite Hp', Ht'. cbn [rbind].
  rewrite count_true_isin_zero_counts by apply compress_kept_counts.
  rewrite count_true_isin_zero_distances by apply compress_kept_distances.
  reflexivity.
Qed.

End TransformerFacts.

(** ** The loader *)

Module LoaderFacts.
Import Frame Loader FrameFacts.

Lemma length_cells (s : Series) : List.length (cells s) = size s.
Proof. destruct s; cbn; apply length_map. Qed.

Lemma cells_at_cons (p : string * Series) (bl : list (string * Series)) (i : nat) :
  cells_at (p :: bl) i = nth_error (cells (snd p)) i :: cells_at bl i.
Proof. reflexivity. Qed.

Lemma series_append_same (a b : Series) :
  dtype_of a = dtype_of b ->
  exists c, series_append a b = Some c /\
            cells c = (cells a ++ cells b)%list /\
            dtype_of c = dtype_of a /\
            size c = (size a + size b)%nat.
Proof.
  destruct a as [x|x|x|x|x], b as [y|y|y|y|y]; try discriminate; intros _;
    eexists; (split; [reflexivity|]); cbn;
    rewrite map_app, length_app; auto.
Qed.

Lemma blocks_append_same (a b : list (string * Series)) :
  block_schema a = block_schema b ->
  exists c, blocks_append a b = Some c /\
            block_schema c = block_schema a /\
            (forall na nb, sized na a -> sized nb b ->
               sized (na + nb) c /\
               (forall i, (i < na)%nat -> cells_at c i = cells_at a i) /\
               (forall i, cells_at c (na + i) = cells_at b i)).
Proof.
  revert b. induction a as [|[n s] a IH]; intros [|[n' s'] b] Hs; try discriminate.
  - exists []. repeat split; try constructor.
  - cbn in Hs. injection Hs as Hn Hd Hrest. subst n'.
    destruct (series_append_same s s' Hd) as (c & Hc & Hcells & Hdc & Hsz).
    destruct (IH b Hrest) as (r & Hr & Hsr & Hrows).
    exists ((n, c) :: r).
    split; [cbn [blocks_append]; now rewrite String.eqb_refl, Hc, Hr|].
    split; [unfold block_schema in *; cbn [map fst snd]; now rewrite Hdc, Hsr|].
    intros na nb Ha Hb.
    apply Forall_cons_iff in Ha as [Hsa Ha']. apply Forall_cons_iff in Hb as [Hsb Hb'].
    cbn [snd] in Hsa, Hsb.
    destruct (Hrows _ _ Ha' Hb') as (Hsized & Hl & Hrt).
    split; [|split].
    + constructor; [cbn; lia|exact Hsized].
    + intros i Hi. rewrite !cells_at_cons. cbn [snd].
      rewrite Hcells, (Hl i Hi). f_equal.
      apply nth_error_app1. rewrite length_cells. lia.
    + intro i. rewrite !cells_at_cons. cbn [snd].
      rewrite Hcells, (Hrt i). f_equal.
      rewrite nth_error_app2 by (rewrite length_cells; lia).
      f_equal. rewrite length_cells. lia.
Qed.

Lemma seq_from (a n : nat) : seq a n = map (Nat.add a) (seq 0 n).
Proof.
  revert a. induction n as [|n IH]; intro a; cbn [seq map]; [reflexivity|].
  rewrite Nat.add_0_r. f_equal.
  rewrite <- (seq_shift n 0), map_map, (IH (S a)).
  apply map_ext. intro i. lia.
Qed.

Lemma rows_split (c a b : list (string * Series)) (na nb : nat) :
  (forall i, (i < na)%nat -> cells_at c i = cells_at a i) ->
  (forall i, cells_at c (na + i) = cells_at b i) ->
  map (cells_at c) (seq 0 (na + nb)) =
  (map (cells_at a) (seq 0 na) ++ map (cells_at b) (seq 0 nb))%list.
Proof.
  intros Hl Hr. rewrite seq_app, map_app. f_equal.
  - apply map_ext_in. intros i Hi%in_seq. apply Hl. lia.
  - cbn [Nat.add]. rewrite (seq_from na nb), map_map.
    apply map_ext. intro i. apply Hr.
Qed.

Lemma nrows_range (n : nat) (bl : list (string * Series)) :
  nrows (mkframe (range_index n) bl) = n.
Proof. unfold nrows, range_index. cbn [index]. now rewrite length_map, length_seq. Qed.

(** Three frames of one schema stack to their rows in list order. *)
Lemma concat_three (b1 b2 b3 : DataFrame) :
  wf b1 -> wf b2 -> wf b3 ->
  schema b2 = schema b1 -> schema b3 = schema b1 ->
  exists out,
    concat [b1; b2; b3] = Ok out /\
    nrows out = (nrows b1 + nrows b2 + nrows b3)%nat /\
    index out = range_index (nrows b1 + nrows b2 + nrows b3) /\
    rows out = (rows b1 ++ rows b2 ++ rows b3)%list /\
    schema out = schema b1.
Proof.
  intros W1 W2 W3 S2 S3. unfold schema in S2, S3.
  destruct (blocks_append_same (blocks b1) (blocks b2) (eq_sym S2))
    as (c12 & E12 & S12 & R12).
  destruct (R12 _ _ W1 W2) as (Z12 & L12 & T12).
  assert (S3' : block_schema c12 = block_schema (blocks b3)) by congruence.
  destruct (blocks_append_same c12 (blocks b3) S3') as (c & E & Sc & R).
  destruct (R _ _ Z12 W3) as (Zc & L & T).
  unfold concat. cbn [blocks_concat]. rewrite E12, E.
  assert (N : list_sum (map nrows [b1; b2; b3]) = (nrows b1 + nrows b2 + nrows b3)%nat)
    by (cbn; lia).
  rewrite N. eexists. split; [reflexivity|].
  split; [apply nrows_range|]. split; [reflexivity|]. split.
  - unfold rows at 1. rewrite nrows_range. unfold row. cbn [blocks].
    rewrite (rows_split c c12 (blocks b3) _ _ L T).
    rewrite (rows_split c12 (blocks b1) (blocks b2) _ _ L12 T12).
    now rewrite <- app_assoc.
  - unfold schema. cbn [blocks]. congruence.
Qed.

Lemma read_each_ext
    (read_csv read_csv' : string -> string -> string -> list (string * dtype) ->
                          list string -> result DataFrame)
    (urls : list string) (df_list : list DataFrame) :
  (forall url, In url urls ->
     read_csv url "," "gzip" taxi_dtypes parse_dates =
     read_csv' url "," "gzip" taxi_dtypes parse_dates) ->
  read_each read_csv urls df_list = read_each read_csv' urls df_list.
Proof.
  revert df_list. induction urls as [|u urls IH]; intros df_list H; [reflexivity|].
  cbn [read_each]. rewrite <- (H u (or_introl eq_refl)).
  destruct (read_csv u "," "gzip" taxi_dtypes parse_dates); [|reflexivity].
  cbn [rbind]. apply IH. intros url Hin. apply H. now right.
Qed.

(** The loop collects what the resources decode to, in list order. *)
Lemma read_each_all
    (read_csv : string -> string -> string -> list (string * dtype) ->
                list string -> result DataFrame)
    (urls : list string) (got df_list : list DataFrame) :
  map (fun url => read_csv url "," "gzip" taxi_dtypes parse_dates) urls = map Ok got ->
  read_each read_csv urls df_list = Ok (df_list ++ got)%list.
Proof.
  revert got df_list. induction urls as [|u urls IH]; intros [|g got] df_list H;
    try discriminate.
  - cbn. now rewrite app_nil_r.
  - cbn [map] in H. injection H as Hu Hrest.
    cbn [read_each]. rewrite Hu. cbn [rbind].
    rewrite (IH got _ Hrest), <- app_assoc. reflexivity.
Qed.

(** C3. When the three resources decode to frames [b1], [b2], [b3] of
    one schema, the loader returns a frame of
    [nrows b1 + nrows b2 + nrows b3] rows: the rows of [b1], then those of
    [b2], then those of [b3], each in their own order, under the index
    0, 1, 2, ... *)
Theorem load_concatenates_in_order
    (read_csv : string -> string -> string -> list (string * dtype) ->
                list string -> result DataFrame)
    (args : list Transformer.pyobj) (kwargs : list (string * Transformer.pyobj))
    (b1 b2 b3 : DataFrame) :
  map (fun url => read_csv url "," "gzip" taxi_dtypes parse_dates) url_list
  = [Ok b1; Ok b2; Ok b3] ->
  wf b1 -> wf b2 -> wf b3 ->
  schema b2 = schema b1 -> schema b3 = schema b1 ->
  exists out,
    load_data_from_api read_csv args kwargs = Ok out /\
    nrows out = (nrows b1 + nrows b2 + nrows b3)%nat /\
    index out = range_index (nrows b1 + nrows b2 + nrows b3) /\
    rows out = (rows b1 ++ rows b2 ++ rows b3)%list /\
    schema out = schema b1.
Proof.
  intros H W1 W2 W3 S2 S3. unfold load_data_from_api.
  rewrite (read_each_all read_csv url_list [b1; b2; b3] [] H).
  cbn [rbind app]. now apply concat_three.
Qed.

Lemma load_concatenates_in_order_witness :
  exists out,
    load_data_from_api Samples.serve [] [] = Ok out /\
    nrows out = (2 + 1 + 3)%nat /\
    index out = [0; 1; 2; 3; 4; 5] /\
    rows out = (rows Samples.october ++ rows Samples.november ++ rows Samples.december)%list /\
    schema out = schema Samples.october.
Proof.
  apply (load_concatenates_in_order Samples.serve [] []
           Samples.october Samples.november Samples.december);
    solve [reflexivity | repeat constructor].
Defined.

(** C9. What the loader returns does not depend on the positional and
    keyword arguments it is called with: two calls with any arguments
    return the same, provided the three resources decode to the same under
    the fixed separator, compression, dtypes and date columns. *)
Theorem load_ignores_arguments
    (read_csv read_csv' : string -> string -> string -> list (string * dtype) ->
                          list string -> result DataFrame)
    (args args' : list Transformer.pyobj)
    (kwargs kwargs' : list (string * Transformer.pyobj)) :
  (forall url, In url url_list ->
     read_csv url "," "gzip" taxi_dtypes parse_dates =
     read_csv' url "," "gzip" taxi_dtypes parse_dates) ->
  load_data_from_api read_csv args kwargs = load_data_from_api read_csv' args' kwargs'.
Proof.
  intro H. unfold load_data_from_api. now rewrite (read_each_ext read_csv read_csv' _ _ H).
Qed.

Lemma load_ignores_arguments_witness :
  load_data_from_api Samples.serve [] [] =
  load_data_from_api Samples.serve_any
    [Transformer.PyInt 7; Transformer.PyFrame Samples.trips]
    [("execution_date", Transformer.PyStr "2024-02-01")].
Proof.
  apply load_ignores_arguments.
  intros url [<-|[<-|[<-|[]]]]; reflexivity.
Defined.

End LoaderFacts.

(** ** More on the transformer *)

Module TransformerBehaviour.
Import Frame Transformer Contract FrameFacts TransformerFacts.

(** *** Labels *)

(** X1. The labels that normalization leaves as they are are exactly
    those without a capital letter A-Z: [passenger_count] stays, every
    label with a capital changes. *)
Theorem normalize_fixed_iff (s : string) :
  Label.normalize s = s <-> Label.no_upper s = true.
Proof.
  split.
  - intro H. rewrite <- H. apply LabelFacts.normalize_no_upper.
  - apply LabelFacts.normalize_fixed.
Qed.

Lemma normalize_fixed_iff_witness :
  Label.normalize "passenger_count" = "passenger_count" /\
  Label.no_upper "RatecodeID" <> true.
Proof.
  split.
  - apply normalize_fixed_iff. reflexivity.
  - intro H. apply normalize_fixed_iff in H. discriminate H.
Defined.

(** *** The date of a timestamp *)

(** X2. [.dt.date] drops the time of day and nothing else: two
    timestamps get the same date exactly when they lie on the same day,
    that is, when they agree on the whole number of days since the epoch. *)
Theorem date_of_ns_same_day (a b : Z) :
  Calendar.date_of_ns a = Calendar.date_of_ns b <->
  a / Calendar.ns_per_day = b / Calendar.ns_per_day.
Proof.
  unfold Calendar.date_of_ns. split.
  - intro H. apply (f_equal Calendar.days_from_civil) in H.
    now rewrite !CalendarFacts.days_from_civil_from_days in H.
  - now intros ->.
Qed.

Lemma date_of_ns_same_day_witness :
  Calendar.date_of_ns 1601512200000000000 = Calendar.date_of_ns 1601510400000000000 /\
  Calendar.date_of_ns 1601510400000000000 <> Calendar.date_of_ns 1601510399999999999.
Proof.
  split.
  - apply date_of_ns_same_day. reflexivity.
  - intro H. apply date_of_ns_same_day in H. discriminate H.
Defined.

(** *** The rows that are kept *)

Lemma truthy_nonzero (x : spec_float) : truthy x = true <-> nonzero x.
Proof.
  unfold nonzero. destruct x as [sg|sg| |sg m e]; cbn; split; try congruence.
  intro H. exfalso. now apply (H sg).
Qed.

(** X3. On a frame with one nullable integer [passenger_count] and one
    float [trip_distance], the run returns the rows of the frame left in
    [data] whose count is present and above zero and whose distance is
    not a zero, and no others. A missing count drops the row; a
    negative, infinite or NaN distance does not. *)
Theorem transform_keeps_nonzero_distance
    (df out : DataFrame) (p : list (option Z)) (t : list spec_float) :
  transform_output df = Ok out ->
  labelled "passenger_count" (normalize_columns df) = [Int64 p] ->
  labelled "trip_distance" (normalize_columns df) = [Float64 t] ->
  out = take_rows (map2 kept p t) (mutated df) /\
  (forall count distance,
     kept count distance = true <-> positive_int count /\ nonzero distance) /\
  Forall positive_int (compress (map2 kept p t) p) /\
  Forall nonzero (compress (map2 kept p t) t).
Proof.
  intros H Hp Ht. split; [apply (transform_keeps df out p t H Hp Ht)|].
  split; [|split].
  - intros count distance. rewrite <- truthy_nonzero. split.
    + apply kept_inv.
    + intros [(z & -> & Hz) Hd]. unfold kept.
      apply Z.ltb_lt in Hz. now rewrite Hz, Hd.
  - apply compress_kept_counts.
  - eapply Forall_impl; [|apply compress_kept_distances].
    intros x. apply truthy_nonzero.
Qed.

Lemma transform_keeps_nonzero_distance_witness :
  take_rows [false; false; true; true; false; true] (mutated Samples.trips)
  = take_rows
      (map2 kept [Some 0; Some 2; Some 3; Some 1; None; Some 1]
         [Samples.f_5_0; fzero; Samples.f_1_2; Samples.f_minus_2_5; Samples.f_5_0; S754_nan])
      (mutated Samples.trips).
Proof.
  apply (transform_keeps_nonzero_distance Samples.trips); reflexivity.
Defined.

(** *** The paired test *)

Lemma count_true_zero (l : list bool) :
  count_true l = 0%nat <-> Forall (fun b => b = false) l.
Proof.
  unfold count_true. induction l as [|b l IH]; cbn.
  - split; [constructor|reflexivity].
  - destruct b; cbn.
    + split; [discriminate|]. intro H. apply Forall_cons_iff in H as [H _]. discriminate.
    + rewrite IH. split; [now constructor|]. intro H. now apply Forall_cons_iff in H.
Qed.

Lemma Forall_pointwise {A} (P Q : A -> Prop) (l : list A) :
  (forall a, P a <-> Q a) -> (Forall P l <-> Forall Q l).
Proof. intro H. split; apply Forall_impl; intro a; apply H. Qed.

Lemma no_zero_counts (p : list (option Z)) :
  count_true (isin_zero (Int64 p)) = 0%nat <-> Forall (fun o => o <> Some 0) p.
Proof.
  rewrite count_true_zero. cbn [isin_zero]. rewrite Forall_map.
  apply Forall_pointwise.
  intros [z|]; [|split; [discriminate|reflexivity]].
  destruct (Z.eqb_spec z 0) as [->|Hz]; split; congruence.
Qed.

Lemma no_zero_distances (t : list spec_float) :
  count_true (isin_zero (Float64 t)) = 0%nat <-> Forall nonzero t.
Proof.
  rewrite count_true_zero. cbn [isin_zero]. rewrite Forall_map.
  apply Forall_pointwise. intro x. rewrite <- truthy_nonzero.
  destruct x as [sg|sg| |sg m e]; cbn; try destruct sg; split; congruence.
Qed.

(** X4. On an output with one integer [passenger_count] and one float
    [trip_distance], [test_output] passes exactly when a column
    [vendor_id] exists, no count equals 0 and no distance is a zero.
    Missing or negative counts and negative or NaN distances pass. *)
Theorem test_output_passes_iff
    (out : DataFrame) (p : list (option Z)) (t : list spec_float) :
  labelled "passenger_count" out = [Int64 p] ->
  labelled "trip_distance" out = [Float64 t] ->
  (test_output (Some out) = Ok tt <->
   In "vendor_id" (columns out) /\
   Forall (fun o => o <> Some 0) p /\
   Forall nonzero t).
Proof.
  intros Hp Ht. unfold test_output, no_zero, getitem. rewrite Hp, Ht.
  rewrite <- existsb_eqb_In, <- no_zero_counts, <- no_zero_distances.
  destruct (existsb (String.eqb "vendor_id") (columns out)); cbn [assert_ rbind].
  2:{ split; [discriminate|]. intros [H _]. discriminate. }
  destruct (Nat.eqb_spec (count_true (isin_zero (Int64 p))) 0) as [Hc|Hc]; cbn [assert_ rbind].
  2:{ split; [discriminate|]. intros (_ & H & _). contradiction. }
  destruct (Nat.eqb_spec (count_true (isin_zero (Float64 t))) 0) as [Hd|Hd]; cbn [assert_].
  - tauto.
  - split; [discriminate|]. intros (_ & _ & H). contradiction.
Qed.

Lemma test_output_passes_iff_witness :
  test_output (Some Samples.negative_distance_output) = Ok tt.
Proof.
  apply (test_output_passes_iff Samples.negative_distance_output
           [Some 1] [Samples.f_minus_2_5]); try reflexivity.
  split; [cbn; tauto|]. split; repeat constructor; discriminate.
Defined.

(** X5. The output of a run on a frame that has a column [VendorID], one
    nullable integer [passenger_count] and one float [trip_distance]
    passes the paired [test_output]. *)
Theorem transform_output_passes_test
    (df out : DataFrame) (p : list (option Z)) (t : list spec_float) :
  transform_output df = Ok out ->
  labelled "passenger_count" (normalize_columns df) = [Int64 p] ->
  labelled "trip_distance" (normalize_columns df) = [Float64 t] ->
  In "VendorID" (columns df) ->
  test_output (Some out) = Ok tt.
Proof. apply transform_passes_test. Qed.

Lemma transform_output_passes_test_witness :
  test_output
    (Some (take_rows [false; false; true; true; false; true] (mutated Samples.trips)))
  = Ok tt.
Proof.
  apply (transform_output_passes_test Samples.trips _
           [Some 0; Some 2; Some 3; Some 1; None; Some 1]
           [Samples.f_5_0; fzero; Samples.f_1_2; Samples.f_minus_2_5; Samples.f_5_0; S754_nan]);
    try reflexivity.
  cbn. tauto.
Defined.

(** *** What a run leaves in [data] *)

Lemma columns_mutated (df : DataFrame) :
  firstn (List.length (columns df)) (columns (mutated df)) = normalized_columns df.
Proof.
  assert (L : List.length (columns df) = List.length (normalized_columns df))
    by (unfold normalized_columns; now rewrite length_map).
  unfold mutated, add_pickup_date.
  destruct (getitem (normalize_columns df) "lpep_pickup_datetime") as [pickup|e]; cbn [rbind].
  2:{ rewrite columns_normalize, L. apply firstn_all. }
  destruct (dt_date pickup) as [dates|e]; cbn [rbind].
  2:{ rewrite columns_normalize, L. apply firstn_all. }
  rewrite columns_setitem, columns_normalize, L, firstn_app, firstn_all, Nat.sub_diag.
  cbn [firstn]. apply app_nil_r.
Qed.

Lemma index_mutated (df : DataFrame) : index (mutated df) = index df.
Proof.
  unfold mutated, add_pickup_date.
  destruct (getitem (normalize_columns df) "lpep_pickup_datetime") as [pickup|e];
    cbn [rbind]; [|reflexivity].
  destruct (dt_date pickup) as [dates|e]; cbn [rbind]; [|reflexivity].
  rewrite index_setitem. reflexivity.
Qed.

(** X6. The run works on the caller's frame: afterwards, whether it
    returned or raised, [data] still has all its rows and its labels are
    the normalized ones, position by position. When the run returned,
    [data] also carries [lpep_pickup_date], and the frame returned is a
    selection of the rows of [data]. *)
Theorem transform_leaves_data
    (args : list pyobj) (kwargs : list (string * pyobj)) (df : DataFrame) :
  let data := snd (transform args kwargs df) in
  index data = index df /\
  firstn (List.length (columns df)) (columns data) = normalized_columns df /\
  (forall out,
     fst (transform args kwargs df) = Ok out ->
     In "lpep_pickup_date" (columns data) /\
     exists keep, List.length keep = nrows data /\ out = take_rows keep data).
Proof.
  rewrite transform_steps. cbn [fst snd].
  split; [apply index_mutated|]. split; [apply columns_mutated|].
  intros out H. apply three_steps_inv in H as (times & m & Ht & _ & Hlen & ->).
  assert (Hmut : mutated df =
                 setitem "lpep_pickup_date"
                   (DateObject (map (option_map Calendar.date_of_ns) times))
                   (normalize_columns df)).
  { unfold mutated, add_pickup_date, getitem. now rewrite Ht. }
  rewrite Hmut. split; [apply setitem_present|].
  exists (to_indexer m). split; [|reflexivity].
  now rewrite nrows_setitem.
Qed.

Lemma transform_leaves_data_witness :
  In "lpep_pickup_date" (columns (snd (transform [] [] Samples.trips))) /\
  exists keep,
    List.length keep = nrows (snd (transform [] [] Samples.trips)) /\
    take_rows [false; false; true; true; false; true] (mutated Samples.trips)
    = take_rows keep (snd (transform [] [] Samples.trips)).
Proof.
  apply (proj2 (proj2 (transform_leaves_data [] [] Samples.trips))). reflexivity.
Defined.

(** *** Exceptions *)

Lemma series_and_raises (m : Mask) (s : Series) (e : exn) :
  series_and m s = Raise e -> e = NotModelled.
Proof. destruct m, s; cbn; congruence. Qed.

Lemma and_raises (m : mask_item) (x : item) (e : exn) :
  and_ m x = Raise e -> e = NotModelled.
Proof.
  destruct m as [m|ms], x as [s|cols]; cbn; try congruence. apply series_and_raises.
Qed.




Lemma filter_mask_raises (df : DataFrame) (e : exn) :
  filter_mask df = Raise e ->
  e = TypeError \/ e = NotModelled \/
  (e = KeyError "passenger_count" /\ ~ In "passenger_count" (columns df)) \/
  (e = KeyError "trip_distance" /\ ~ In "trip_distance" (columns df)).
Proof.
  unfold filter_mask.
  destruct (getitem df "passenger_count") as [pc|e'] eqn:Ep; cbn [rbind].
  2:{ intros [= <-]. right. right. left.
      split; [eapply getitem_raises, Ep|].
      intro Hin. apply labelled_present in Hin. unfold getitem in Ep.
      destruct (labelled "passenger_count" df) as [|? [|? ?]]; [tauto|discriminate..]. }
  destruct (gt0 pc) as [pos|e'] eqn:Eg; cbn [rbind].
  2:{ intros [= <-]. left. eapply gt0_raises, Eg. }
  destruct (getitem df "trip_distance") as [td|e'] eqn:Et; cbn [rbind].
  2:{ intros [= <-]. right. right. right.
      split; [eapply getitem_raises, Et|].
      intro Hin. apply labelled_present in Hin. unfold getitem in Et.
      destruct (labelled "trip_distance" df) as [|? [|? ?]]; [tauto|discriminate..]. }
  destruct (and_ pos td) as [both|e'] eqn:Ea; cbn [rbind]; [discriminate|].
  intros [= <-]. right. left. eapply and_raises, Ea.
Qed.




(** X8. A run raises [AttributeError] exactly when some label normalizes
    to [lpep_pickup_datetime] but [data['lpep_pickup_datetime']] is not a
    single timestamp column: the label repeats, or the column holds
    something else (text left unparsed, say). *)
Theorem attribute_error_iff (df : DataFrame) :
  transform_output df = Raise AttributeError <->
  In "lpep_pickup_datetime" (normalized_columns df) /\
  forall times,
    labelled "lpep_pickup_datetime" (normalize_columns df) <> [Datetime64 times].
Proof.
  rewrite transform_output_steps. unfold three_steps, add_pickup_date.
  rewrite <- columns_normalize, <- labelled_present. unfold getitem.
  destruct (labelled "lpep_pickup_datetime" (normalize_columns df)) as [|s [|s' l]];
    cbn [rbind].
  - split; [discriminate|]. intros [H _]. now contradiction H.
  - destruct s as [v|v|v|times|v]; cbn [dt_date rbind];
      try (split; [intros _; split; [discriminate|intros times; discriminate]|reflexivity]).
    set (dates := DateObject _). split.
    + unfold row_filter. intro H.
      destruct (filter_mask (setitem "lpep_pickup_date" dates (normalize_columns df)))
        as [m|e] eqn:Em; cbn [rbind] in H.
      * unfold getitem_bool in H. destruct (_ =? _)%nat; discriminate.
      * injection H as ->. apply filter_mask_raises in Em as [H|[H|[[H _]|[H _]]]];
          discriminate.
    + intros [_ H]. now contradiction (H times).
  - cbn [dt_date rbind]. split; [|reflexivity].
    intros _. split; [discriminate|intros times; discriminate].
Qed.

Lemma attribute_error_iff_witness :
  transform_output Samples.text_datetime = Raise AttributeError.
Proof.
  apply attribute_error_iff. split.
  - cbn. tauto.
  - intros times. discriminate.
Defined.

(** X10. Counts that were left as text stop the run at the comparison:
    with a single timestamp column [lpep_pickup_datetime] and a single
    text column [passenger_count] holding at least one value, the run
    raises [TypeError], whatever the distances are, and [data] has
    already received its date column. *)
Theorem text_counts_raise_type_error
    (args : list pyobj) (kwargs : list (string * pyobj))
    (df : DataFrame) (times : list (option Z)) (v : list (option string)) :
  labelled "lpep_pickup_datetime" (normalize_columns df) = [Datetime64 times] ->
  labelled "passenger_count" (normalize_columns df) = [StrObject v] ->
  forallb is_null v = false ->
  fst (transform args kwargs df) = Raise TypeError /\
  In "lpep_pickup_date" (columns (snd (transform args kwargs df))).
Proof.
  intros Hd Hp Hv. rewrite transform_steps. cbn [fst snd]. split.
  - unfold three_steps, add_pickup_date, getitem. rewrite Hd. cbn [rbind dt_date].
    unfold row_filter, filter_mask, getitem.
    rewrite labelled_setitem_other by discriminate. rewrite Hp. cbn [rbind gt0 series_gt0].
    now rewrite Hv.
  - unfold mutated, add_pickup_date, getitem. rewrite Hd. cbn [rbind dt_date].
    apply setitem_present.
Qed.

Lemma text_counts_raise_type_error_witness :
  fst (transform [] [] Samples.text_counts) = Raise TypeError /\
  In "lpep_pickup_date" (columns (snd (transform [] [] Samples.text_counts))).
Proof.
  apply (text_counts_raise_type_error [] [] Samples.text_counts
           [Some Samples.t_2020_10_01; None] [Some "1"; None]); reflexivity.
Defined.

(** *** Running the block on its own output *)

Lemma normalize_columns_fixed (df : DataFrame) :
  normalized df -> normalize_columns df = df.
Proof.
  destruct df as [ix bl]. unfold normalized, normalize_columns, columns. cbn [blocks index].
  intro H. f_equal. induction bl as [|[n c] bl IH]; [reflexivity|].
  cbn [map fst snd] in *. apply Forall_cons_iff in H as [Hn H].
  now rewrite Hn, IH.
Qed.

Lemma normalized_output (df out : DataFrame) :
  transform_output df = Ok out -> normalized out.
Proof.
  intro H. unfold normalized. rewrite (columns_of_output _ _ H).
  apply Forall_app. split.
  - unfold normalized_columns. rewrite Forall_map. apply Forall_forall.
    intros x _. apply LabelFacts.normalize_fixed, LabelFacts.normalize_no_upper.
  - destruct (existsb _ _); repeat constructor.
Qed.

Lemma setitem_same (key : string) (s : Series) (df : DataFrame) :
  In key (columns df) ->
  (forall c, In (key, c) (blocks df) -> c = s) ->
  setitem key s df = df.
Proof.
  intros Hin Hall. unfold setitem.
  apply existsb_eqb_In in Hin. rewrite Hin.
  destruct df as [ix bl]. cbn [index blocks] in *. f_equal.
  clear Hin. induction bl as [|[n c] bl IH]; [reflexivity|].
  cbn [map fst]. rewrite IH by (intros c' Hc'; apply Hall; now right). f_equal.
  destruct (String.eqb_spec n key) as [->|_]; [|reflexivity].
  f_equal. symmetry. apply Hall. now left.
Qed.

Lemma compress_all {A} (keep : list bool) (l : list A) :
  Forall (fun b => b = true) keep ->
  (List.length l <= List.length keep)%nat ->
  compress keep l = l.
Proof.
  intro H. revert l. induction H as [|b keep -> _ IH]; intros [|x l] Hl; cbn in *;
    try reflexivity; try lia.
  f_equal. apply IH. lia.
Qed.

Lemma length_compress {A} (keep : list bool) (l : list A) :
  List.length l = List.length keep ->
  List.length (compress keep l) = count_true keep.
Proof.
  unfold count_true. revert l. induction keep as [|b keep IH]; intros [|x l] Hl;
    cbn in *; try reflexivity; try discriminate.
  injection Hl as Hl. destruct b; cbn; now rewrite IH.
Qed.

Lemma size_series_compress (keep : list bool) (s : Series) :
  size s = List.length keep -> size (series_compress keep s) = count_true keep.
Proof. destruct s; cbn; apply length_compress. Qed.

Lemma series_compress_all (keep : list bool) (s : Series) :
  Forall (fun b => b = true) keep ->
  (size s <= List.length keep)%nat ->
  series_compress keep s = s.
Proof. intros H Hl. destruct s; cbn in *; f_equal; now apply compress_all. Qed.

(** The rows that were kept are all kept again. *)
Lemma kept_again (p : list (option Z)) (t : list spec_float) :
  map2 kept (compress (map2 kept p t) p) (compress (map2 kept p t) t)
  = map (fun _ => true) (compress (map2 kept p t) p).
Proof.
  revert t. induction p as [|o p IH]; intros [|x t]; cbn; try reflexivity.
  destruct (kept o x) eqn:E; cbn; [|apply IH].
  now rewrite E, IH.
Qed.

Lemma wf_setitem (key : string) (s : Series) (df : DataFrame) :
  wf df -> size s = nrows df -> wf (setitem key s df).
Proof.
  unfold wf, sized. intros Hwf Hs. rewrite nrows_setitem. unfold setitem.
  destruct (existsb _ _); cbn [blocks].
  - rewrite Forall_map. eapply Forall_impl; [|exact Hwf].
    intros [n c] Hc. cbn in *. now destruct (String.eqb n key).
  - apply Forall_app. split; [exact Hwf|]. now repeat constructor.
Qed.

Lemma take_rows_all (keep : list bool) (df : DataFrame) :
  wf df ->
  Forall (fun b => b = true) keep ->
  List.length keep = nrows df ->
  take_rows keep df = df.
Proof.
  intros Hwf Hall Hlen. destruct df as [ix bl]. unfold take_rows, wf, sized, nrows in *.
  cbn [index blocks] in *. f_equal.
  - apply compress_all; [exact Hall|lia].
  - induction bl as [|[n c] bl IH]; [reflexivity|].
    apply Forall_cons_iff in Hwf as [Hc Hwf]. cbn [map fst snd] in *.
    rewrite IH by exact Hwf. f_equal. f_equal.
    apply series_compress_all; [exact Hall|lia].
Qed.

Lemma wf_take_rows (keep : list bool) (df : DataFrame) :
  wf df -> List.length keep = nrows df -> wf (take_rows keep df).
Proof.
  unfold wf, sized, take_rows, nrows. cbn [index blocks]. intros Hwf Hlen.
  rewrite Forall_map. eapply Forall_impl; [|exact Hwf].
  intros [n c] Hc. cbn [snd] in *.
  rewrite size_series_compress, length_compress; [reflexivity| |]; lia.
Qed.

(** X9. Running the block again on the frame it returned changes
    nothing: for a well-formed input with one nullable integer
    [passenger_count] and one float [trip_distance], the output of the run
    is a fixed point of the block. Its labels are normalized already, its
    dates are the dates of its timestamps already, and each of its rows
    passes the filter again. *)
Theorem transform_twice
    (df out : DataFrame) (p : list (option Z)) (t : list spec_float) :
  wf df ->
  transform_output df = Ok out ->
  labelled "passenger_count" (normalize_columns df) = [Int64 p] ->
  labelled "trip_distance" (normalize_columns df) = [Float64 t] ->
  transform_output out = Ok out.
Proof.
  intros Hwf H Hp Ht.
  pose proof (normalized_output _ _ H) as Hnorm.
  destruct (transform_keeps df out p t H Hp Ht) as (Hout & Hp' & Ht').
  rewrite transform_output_steps in H |- *.
  apply three_steps_inv in H as (times & m & Hd & Hm & Hlen & Heq).
  set (dates := DateObject (map (option_map Calendar.date_of_ns) times)) in *.
  set (df2 := setitem "lpep_pickup_date" dates (normalize_columns df)) in *.
  cbn zeta in Hm, Heq.
  assert (Hwf2 : wf df2).
  { apply wf_setitem; [apply wf_normalize, Hwf|].
    change (size dates) with (List.length (map (option_map Calendar.date_of_ns) times)).
    rewrite length_map.
    change (List.length times) with (size (Datetime64 times)).
    apply (wf_labelled _ "lpep_pickup_datetime"); [apply wf_normalize, Hwf|].
    rewrite Hd. now left. }
  assert (Hn2 : nrows df2 = nrows df) by (unfold df2; now rewrite nrows_setitem).
  assert (Hwfo : wf out) by (rewrite Heq; apply wf_take_rows; [exact Hwf2|lia]).
  (* step 1 *)
  unfold three_steps. rewrite (normalize_columns_fixed _ Hnorm).
  (* step 2 *)
  assert (Hd' : labelled "lpep_pickup_datetime" out
                = [Datetime64 (compress (to_indexer m) times)]).
  { rewrite Heq, labelled_take_rows. unfold df2.
    rewrite labelled_setitem_other by discriminate. now rewrite Hd. }
  unfold add_pickup_date, getitem. rewrite Hd'. cbn [rbind dt_date].
  rewrite setitem_same.
  2:{ rewrite Heq, columns_take_rows. apply setitem_present. }
  2:{ intros c Hc. rewrite Heq in Hc. unfold take_rows in Hc. cbn [blocks] in Hc.
      apply in_map_iff in Hc as [[n c'] [Hnc Hin]]. cbn in Hnc.
      injection Hnc as -> <-. apply setitem_holds in Hin. subst c'.
      unfold dates. cbn. now rewrite compress_map. }
  (* step 3 *)
  destruct (filter_mask_kept out _ _ Hp' Ht') as (m' & Hm' & Hix).
  unfold row_filter. rewrite Hm'. cbn [rbind]. unfold getitem_bool.
  rewrite kept_again in Hix.
  assert (Hlp : size (Int64 (compress (map2 kept p t) p)) = nrows out).
  { apply (wf_labelled _ "passenger_count"); [exact Hwfo|]. rewrite Hp'. now left. }
  cbn [size] in Hlp.
  assert (Hl' : List.length (to_indexer m') = nrows out)
    by (now rewrite Hix, length_map).
  rewrite Hl', Nat.eqb_refl. f_equal.
  apply take_rows_all; [exact Hwfo| |exact Hl'].
  rewrite Hix. apply Forall_map, Forall_forall. reflexivity.
Qed.

Lemma transform_twice_witness :
  transform_output (take_rows [false; false; true; true; false; true] (mutated Samples.trips))
  = Ok (take_rows [false; false; true; true; false; true] (mutated Samples.trips)).
Proof.
  apply (transform_twice Samples.trips _
           [Some 0; Some 2; Some 3; Some 1; None; Some 1]
           [Samples.f_5_0; fzero; Samples.f_1_2; Samples.f_minus_2_5; Samples.f_5_0; S754_nan]);
    try reflexivity.
  repeat constructor.
Defined.

End TransformerBehaviour.

(** ** More on the loader *)

Module LoaderBehaviour.
Import Frame Loader FrameFacts LoaderFacts.

Lemma read_each_fails
    (read_csv : string -> string -> string -> list (string * dtype) ->
                list string -> result DataFrame)
    (pre post : list string) (u : string) (got df_list : list DataFrame) (e : exn) :
  map (fun url => read_csv url "," "gzip" taxi_dtypes parse_dates) pre = map Ok got ->
  read_csv u "," "gzip" taxi_dtypes parse_dates = Raise e ->
  read_each read_csv (pre ++ u :: post) df_list = Raise e.
Proof.
  revert got df_list. induction pre as [|v pre IH]; intros [|g got] df_list Hpre Hu;
    try discriminate.
  - cbn. now rewrite Hu.
  - cbn [map] in Hpre. injection Hpre as Hv Hpre.
    cbn [app read_each]. rewrite Hv. cbn [rbind]. now apply (IH got).
Qed.

(** X11. A resource that cannot be fetched or decoded fails the whole
    load with its own exception: when the resources before it in
    [url_list] decode and it raises [e], the loader raises [e], whatever
    the resources after it would give. No partial frame is returned. *)
Theorem load_raises_first_failure
    (read_csv : string -> string -> string -> list (string * dtype) ->
                list string -> result DataFrame)
    (args : list Transformer.pyobj) (kwargs : list (string * Transformer.pyobj))
    (pre post : list string) (u : string) (got : list DataFrame) (e : exn) :
  url_list = (pre ++ u :: post)%list ->
  map (fun url => read_csv url "," "gzip" taxi_dtypes parse_dates) pre = map Ok got ->
  read_csv u "," "gzip" taxi_dtypes parse_dates = Raise e ->
  load_data_from_api read_csv args kwargs = Raise e.
Proof.
  intros Hsplit Hpre Hu. unfold load_data_from_api. rewrite Hsplit.
  now rewrite (read_each_fails read_csv pre post u got [] e Hpre Hu).
Qed.

Lemma load_raises_first_failure_witness :
  load_data_from_api Samples.serve_without_november [] [] = Raise ValueError.
Proof.
  apply (load_raises_first_failure Samples.serve_without_november [] []
           [nth 0 url_list ""] [nth 2 url_list ""] (nth 1 url_list "")
           [Samples.october] ValueError); reflexivity.
Defined.

Lemma read_each_ok
    (read_csv : string -> string -> string -> list (string * dtype) ->
                list string -> result DataFrame)
    (urls : list string) (df_list l : list DataFrame) :
  read_each read_csv urls df_list = Ok l ->
  exists got,
    map (fun url => read_csv url "," "gzip" taxi_dtypes parse_dates) urls = map Ok got /\
    l = (df_list ++ got)%list.
Proof.
  revert df_list. induction urls as [|u urls IH]; intros df_list H.
  - cbn in H. injection H as <-. exists []. now rewrite app_nil_r.
  - cbn [read_each] in H.
    destruct (read_csv u "," "gzip" taxi_dtypes parse_dates) as [b|e] eqn:Eu;
      cbn [rbind] in H; [|discriminate].
    apply IH in H as (got & Hgot & ->). exists (b :: got).
    cbn [map]. rewrite Eu, Hgot, <- app_assoc. now split.
Qed.

(** X12. A frame is returned only when all three resources decoded: the
    frame then has as many rows as the three frames together, under the
    index 0, 1, 2, ... *)
Theorem load_returns_all_or_nothing
    (read_csv : string -> string -> string -> list (string * dtype) ->
                list string -> result DataFrame)
    (args : list Transformer.pyobj) (kwargs : list (string * Transformer.pyobj))
    (out : DataFrame) :
  load_data_from_api read_csv args kwargs = Ok out ->
  exists b1 b2 b3,
    map (fun url => read_csv url "," "gzip" taxi_dtypes parse_dates) url_list
    = [Ok b1; Ok b2; Ok b3] /\
    concat [b1; b2; b3] = Ok out /\
    nrows out = (nrows b1 + nrows b2 + nrows b3)%nat /\
    index out = range_index (nrows b1 + nrows b2 + nrows b3).
Proof.
  unfold load_data_from_api. intro H.
  destruct (read_each read_csv url_list []) as [l|e] eqn:El; cbn [rbind] in H;
    [|discriminate].
  apply read_each_ok in El as (got & Hgot & ->). cbn [app] in H.
  assert (Hlen : List.length got = 3%nat).
  { apply (f_equal (@List.length _)) in Hgot. now rewrite !length_map in Hgot. }
  destruct got as [|b1 [|b2 [|b3 [|b4 got]]]]; try discriminate Hlen.
  exists b1, b2, b3. split; [exact Hgot|]. split; [exact H|].
  unfold concat in H. destruct (blocks_concat (blocks b1) [b2; b3]); [|discriminate].
  injection H as <-.
  replace (nrows b1 + (nrows b2 + (nrows b3 + 0)))%nat
    with (nrows b1 + nrows b2 + nrows b3)%nat by lia.
  split; [apply nrows_range|reflexivity].
Qed.

Lemma load_returns_all_or_nothing_witness :
  exists b1 b2 b3,
    map (fun url => Samples.serve url "," "gzip" taxi_dtypes parse_dates) url_list
    = [Ok b1; Ok b2; Ok b3] /\
    concat [b1; b2; b3] = Ok Samples.quarter /\
    nrows Samples.quarter = (nrows b1 + nrows b2 + nrows b3)%nat /\
    index Samples.quarter = range_index (nrows b1 + nrows b2 + nrows b3).
Proof.
  apply (load_returns_all_or_nothing Samples.serve [] []). reflexivity.
Defined.

End LoaderBehaviour.

(** ** The two blocks together *)

Module Pipeline.
Import Frame Transformer Contract FrameFacts TransformerFacts LoaderFacts.

(** The dtypes of the columns that normalize to [key] can be read off
    the schema. *)
Lemma dtypes_by_schema (df : DataFrame) (key : string) :
  map dtype_of (labelled key (normalize_columns df)) =
  map snd (filter (fun q => String.eqb (Label.normalize (fst q)) key) (schema df)).
Proof.
  unfold labelled, normalize_columns, schema, block_schema. cbn [blocks].
  induction (blocks df) as [|[n c] bl IH]; [reflexivity|].
  cbn [map filter fst snd].
  destruct (String.eqb (Label.normalize n) key); cbn [map snd]; now rewrite IH.
Qed.

Lemma has_column_dtypes (df : DataFrame) (key : string) (ty : dtype) :
  has_column df key ty <-> map dtype_of (labelled key (normalize_columns df)) = [ty].
Proof.
  unfold has_column. split.
  - intros (s & -> & <-). reflexivity.
  - destruct (labelled key (normalize_columns df)) as [|s [|s' l]]; try discriminate.
    intros [= <-]. now exists s.
Qed.

Lemma has_column_schema (a b : DataFrame) (key : string) (ty : dtype) :
  schema a = schema b -> has_column a key ty -> has_column b key ty.
Proof.
  intro H. rewrite !has_column_dtypes, !dtypes_by_schema. now rewrite H.
Qed.

Lemma columns_schema (df : DataFrame) : columns df = map fst (schema df).
Proof. unfold columns, schema, block_schema. now rewrite map_map. Qed.

(** Stacking well-formed frames of one schema gives a well-formed frame. *)
Lemma concat_three_wf (b1 b2 b3 out : DataFrame) :
  wf b1 -> wf b2 -> wf b3 ->
  schema b2 = schema b1 -> schema b3 = schema b1 ->
  concat [b1; b2; b3] = Ok out -> wf out.
Proof.
  intros W1 W2 W3 S2 S3. unfold schema in S2, S3.
  destruct (blocks_append_same (blocks b1) (blocks b2) (eq_sym S2))
    as (c12 & E12 & S12 & R12).
  destruct (R12 _ _ W1 W2) as (Z12 & _ & _).
  assert (S3' : block_schema c12 = block_schema (blocks b3)) by congruence.
  destruct (blocks_append_same c12 (blocks b3) S3') as (c & E & Sc & R).
  destruct (R _ _ Z12 W3) as (Zc & _ & _).
  unfold concat. cbn [blocks_concat]. rewrite E12, E. intros [= <-].
  unfold wf. rewrite nrows_range. cbn [blocks].
  replace (nrows b1 + (nrows b2 + (nrows b3 + 0)))%nat
    with (nrows b1 + nrows b2 + nrows b3)%nat by lia.
  exact Zc.
Qed.

Lemma output_row_count (df out : DataFrame) :
  transform_output df = Ok out -> (nrows out <= nrows df)%nat.
Proof.
  rewrite transform_output_steps. intro H.
  apply three_steps_inv in H as (times & m & _ & _ & _ & ->).
  unfold nrows, take_rows. cbn [index].
  rewrite index_setitem. apply length_compress_le.
Qed.

(** X13. The loader's frame goes through the transformer: when the three
    resources decode to well-formed frames of one schema that has a
    column [VendorID], one timestamp column [lpep_pickup_datetime], one
    nullable integer column [passenger_count] and one float column
    [trip_distance], the loader returns a frame that passes its test, the
    transformer run on that frame returns a frame that passes its test,
    and this frame has no more rows than the three resources together. *)
Theorem pipeline_runs
    (read_csv : string -> string -> string -> list (string * dtype) ->
                list string -> result DataFrame)
    (b1 b2 b3 : DataFrame) :
  map (fun url => read_csv url "," "gzip" Loader.taxi_dtypes Loader.parse_dates)
      Loader.url_list
  = [Ok b1; Ok b2; Ok b3] ->
  wf b1 -> wf b2 -> wf b3 ->
  schema b2 = schema b1 -> schema b3 = schema b1 ->
  In "VendorID" (columns b1) ->
  has_column b1 "lpep_pickup_datetime" datetime64_ns ->
  has_column b1 "passenger_count" Int64Dtype ->
  has_column b1 "trip_distance" float64 ->
  exists loaded out,
    Loader.load_data_from_api read_csv [] [] = Ok loaded /\
    Loader.test_output (Some loaded) = Ok tt /\
    transform_output loaded = Ok out /\
    test_output (Some out) = Ok tt /\
    (nrows out <= nrows b1 + nrows b2 + nrows b3)%nat.
Proof.
  intros H W1 W2 W3 S2 S3 Hv Hd Hp Ht.
  assert (Hload : Loader.load_data_from_api read_csv [] [] = concat [b1; b2; b3]).
  { unfold Loader.load_data_from_api.
    now rewrite (read_each_all read_csv Loader.url_list [b1; b2; b3] [] H). }
  destruct (concat_three b1 b2 b3 W1 W2 W3 S2 S3) as (loaded & Hc & Hn & _ & _ & Hs).
  pose proof (concat_three_wf _ _ _ _ W1 W2 W3 S2 S3 Hc) as Wl.
  symmetry in Hs.
  apply (has_column_schema _ _ _ _ Hs) in Hd, Hp, Ht.
  destruct (typed_columns_succeed loaded Wl Hd Hp Ht) as [out Hout].
  exists loaded, out. rewrite Hload. repeat split; try assumption.
  - destruct Hp as (sp & Hp & Tp). apply dtype_int in Tp as [p ->].
    destruct Ht as (st & Ht & Tt). apply dtype_float in Tt as [t ->].
    apply (transform_passes_test loaded out p t Hout Hp Ht).
    rewrite columns_schema, <- Hs, <- columns_schema. exact Hv.
  - rewrite <- Hn. now apply output_row_count.
Qed.

Lemma pipeline_runs_witness :
  exists loaded out,
    Loader.load_data_from_api Samples.serve [] [] = Ok loaded /\
    Loader.test_output (Some loaded) = Ok tt /\
    transform_output loaded = Ok out /\
    test_output (Some out) = Ok tt /\
    (nrows out <= 2 + 1 + 3)%nat.
Proof.
  apply (pipeline_runs Samples.serve Samples.october Samples.november Samples.december);
    try reflexivity; try (repeat constructor);
    try (eexists; split; reflexivity).
Defined.

(** *** Stacked frames through the transformer *)

Lemma blocks_append_stacked (a b c : list (string * Series)) :
  blocks_append a b = Some c <-> stacked a b c.
Proof.
  split.
  - revert b c. induction a as [|[n s] a IH]; intros [|[n' s'] b] c H; cbn in H;
      try discriminate.
    + injection H as <-. constructor.
    + destruct (String.eqb_spec n n') as [<-|_]; [|discriminate].
      destruct (series_append s s') as [sc|] eqn:Es; [|discriminate].
      destruct (blocks_append a b) as [r|] eqn:Er; [|discriminate].
      injection H as <-. constructor; [exact Es|now apply IH].
  - induction 1 as [|n sa sb sc a b c Hs _ IH]; [reflexivity|].
    cbn. now rewrite String.eqb_refl, Hs, IH.
Qed.

Lemma series_append_dtype (sa sb sc : Series) :
  series_append sa sb = Some sc -> dtype_of sb = dtype_of sa /\ dtype_of sc = dtype_of sa.
Proof. destruct sa, sb; cbn; try discriminate; intros [= <-]; now split. Qed.

Lemma stacked_schema (a b c : list (string * Series)) :
  stacked a b c -> block_schema b = block_schema a /\ block_schema c = block_schema a.
Proof.
  induction 1 as [|n sa sb sc a b c Hs _ [IHb IHc]]; [now split|].
  apply series_append_dtype in Hs as [Hb Hc].
  unfold block_schema in *. cbn [map fst snd]. now rewrite Hb, Hc, IHb, IHc.
Qed.

Lemma stacked_app (a b c a' b' c' : list (string * Series)) :
  stacked a b c -> stacked a' b' c' -> stacked (a ++ a') (b ++ b') (c ++ c').
Proof. induction 1; intro H'; cbn; [exact H'|constructor; auto]. Qed.

Lemma stacked_rename (f : string -> string) (a b c : list (string * Series)) :
  stacked a b c ->
  stacked (map (fun p => (f (fst p), snd p)) a)
          (map (fun p => (f (fst p), snd p)) b)
          (map (fun p => (f (fst p), snd p)) c).
Proof. induction 1; cbn; constructor; auto. Qed.

Lemma stacked_filter (f : string -> bool) (a b c : list (string * Series)) :
  stacked a b c ->
  stacked (filter (fun p => f (fst p)) a)
          (filter (fun p => f (fst p)) b)
          (filter (fun p => f (fst p)) c).
Proof.
  induction 1 as [|n sa sb sc a b c Hs _ IH]; cbn; [constructor|].
  destruct (f n); [constructor|]; auto.
Qed.

Lemma stacked_single (a b c : list (string * Series)) (sa : Series) :
  stacked a b c -> map snd a = [sa] ->
  exists sb sc, map snd b = [sb] /\ map snd c = [sc] /\ series_append sa sb = Some sc.
Proof.
  intros H Ha. destruct H as [|n sa' sb sc a b c Hs H]; [discriminate|].
  cbn in Ha. injection Ha as -> Ha.
  destruct H; [|discriminate]. now exists sb, sc.
Qed.

(** The columns under one label in stacked frames. *)
Lemma labelled_stacked (a b c : DataFrame) (key : string) (sa : Series) :
  stacked (blocks a) (blocks b) (blocks c) ->
  labelled key a = [sa] ->
  exists sb sc,
    labelled key b = [sb] /\ labelled key c = [sc] /\ series_append sa sb = Some sc.
Proof.
  intros H. unfold labelled.
  apply (stacked_single _ _ _ sa (stacked_filter (fun n => String.eqb n key) _ _ _ H)).
Qed.

Lemma stacked_columns (a b c : list (string * Series)) :
  stacked a b c -> map fst b = map fst a /\ map fst c = map fst a.
Proof.
  induction 1 as [|n sa sb sc a b c _ _ [IHb IHc]]; [now split|].
  cbn. now rewrite IHb, IHc.
Qed.

Lemma stacked_setitem (key : string) (sa sb sc : Series) (a b c : DataFrame) :
  stacked (blocks a) (blocks b) (blocks c) ->
  series_append sa sb = Some sc ->
  stacked (blocks (setitem key sa a)) (blocks (setitem key sb b))
          (blocks (setitem key sc c)).
Proof.
  intros H Hs. unfold setitem, columns.
  destruct (stacked_columns _ _ _ H) as [-> ->].
  destruct (existsb (String.eqb key) (map fst (blocks a))); cbn [blocks].
  - induction H as [|n xa xb xc a' b' c' Hx _ IH]; cbn; [constructor|].
    destruct (String.eqb n key); cbn; constructor; auto.
  - apply stacked_app; [exact H|]. repeat constructor. exact Hs.
Qed.

Lemma compress_app {A} (keep keep' : list bool) (l l' : list A) :
  List.length l = List.length keep ->
  compress (keep ++ keep') (l ++ l') = (compress keep l ++ compress keep' l')%list.
Proof.
  revert l. induction keep as [|k keep IH]; intros [|x l] H; cbn in *; try discriminate.
  - reflexivity.
  - injection H as H. destruct k; cbn; now rewrite IH.
Qed.

Lemma series_compress_append (keep keep' : list bool) (sa sb sc : Series) :
  series_append sa sb = Some sc ->
  size sa = List.length keep ->
  series_append (series_compress keep sa) (series_compress keep' sb)
  = Some (series_compress (keep ++ keep') sc).
Proof.
  destruct sa, sb; cbn; try discriminate; intros [= <-] H; cbn;
    now rewrite compress_app.
Qed.

Lemma stacked_take_rows (keep keep' : list bool) (a b c : list (string * Series)) :
  stacked a b c ->
  sized (List.length keep) a ->
  stacked (map (fun p => (fst p, series_compress keep (snd p))) a)
          (map (fun p => (fst p, series_compress keep' (snd p))) b)
          (map (fun p => (fst p, series_compress (keep ++ keep') (snd p))) c).
Proof.
  induction 1 as [|n sa sb sc a b c Hs _ IH]; intro Hz; cbn; [constructor|].
  apply Forall_cons_iff in Hz as [Hsa Hz]. cbn [snd] in Hsa.
  constructor; [now apply series_compress_append|now apply IH].
Qed.

Lemma map2_app {A B C} (f : A -> B -> C) (l l' : list A) (r r' : list B) :
  List.length l = List.length r ->
  map2 f (l ++ l') (r ++ r') = (map2 f l r ++ map2 f l' r')%list.
Proof.
  revert r. induction l as [|x l IH]; intros [|y r] H; cbn in *; try discriminate.
  - reflexivity.
  - injection H as H. now rewrite IH.
Qed.

Lemma count_true_app (l l' : list bool) :
  count_true (l ++ l') = (count_true l + count_true l')%nat.
Proof. unfold count_true. now rewrite filter_app, length_app. Qed.

Lemma append_int (p : list (option Z)) (sb sc : Series) :
  series_append (Int64 p) sb = Some sc ->
  exists q, sb = Int64 q /\ sc = Int64 (p ++ q).
Proof. destruct sb as [q|q|q|q|q]; cbn; try discriminate. intros [= <-]. now exists q. Qed.

Lemma append_float (t : list spec_float) (sb sc : Series) :
  series_append (Float64 t) sb = Some sc ->
  exists u, sb = Float64 u /\ sc = Float64 (t ++ u).
Proof. destruct sb as [q|q|q|q|q]; cbn; try discriminate. intros [= <-]. now exists q. Qed.

Lemma append_datetime (t : list (option Z)) (sb sc : Series) :
  series_append (Datetime64 t) sb = Some sc ->
  exists u, sb = Datetime64 u /\ sc = Datetime64 (t ++ u).
Proof. destruct sb as [q|q|q|q|q]; cbn; try discriminate. intros [= <-]. now exists q. Qed.

Lemma mutated_typed (df : DataFrame) (times : list (option Z)) :
  labelled "lpep_pickup_datetime" (normalize_columns df) = [Datetime64 times] ->
  mutated df =
  setitem "lpep_pickup_date" (DateObject (map (option_map Calendar.date_of_ns) times))
    (normalize_columns df).
Proof. intro H. unfold mutated, add_pickup_date, getitem. now rewrite H. Qed.

Lemma wf_mutated (df : DataFrame) (times : list (option Z)) :
  wf df ->
  labelled "lpep_pickup_datetime" (normalize_columns df) = [Datetime64 times] ->
  wf (mutated df) /\ nrows (mutated df) = nrows df.
Proof.
  intros Hwf H. rewrite (mutated_typed _ _ H). split; [|now rewrite nrows_setitem].
  apply TransformerBehaviour.wf_setitem; [apply wf_normalize, Hwf|].
  cbn [size]. rewrite length_map.
  change (List.length times) with (size (Datetime64 times)).
  apply (wf_labelled _ "lpep_pickup_datetime"); [apply wf_normalize, Hwf|].
  rewrite H. now left.
Qed.

(** One typed frame through the block: the output and its size. *)
Lemma transform_typed (df : DataFrame)
    (times : list (option Z)) (p : list (option Z)) (t : list spec_float) :
  wf df ->
  labelled "lpep_pickup_datetime" (normalize_columns df) = [Datetime64 times] ->
  labelled "passenger_count" (normalize_columns df) = [Int64 p] ->
  labelled "trip_distance" (normalize_columns df) = [Float64 t] ->
  List.length (map2 kept p t) = nrows df /\
  transform_output df = Ok (take_rows (map2 kept p t) (mutated df)) /\
  wf (take_rows (map2 kept p t) (mutated df)) /\
  nrows (take_rows (map2 kept p t) (mutated df)) = count_true (map2 kept p t).
Proof.
  intros Hwf Hd Hp Ht.
  assert (Lp : size (Int64 p) = nrows (normalize_columns df))
    by (apply (wf_labelled _ "passenger_count"); [apply wf_normalize, Hwf|rewrite Hp; now left]).
  assert (Lt : size (Float64 t) = nrows (normalize_columns df))
    by (apply (wf_labelled _ "trip_distance"); [apply wf_normalize, Hwf|rewrite Ht; now left]).
  change (List.length p = nrows df) in Lp. change (List.length t = nrows df) in Lt.
  assert (Lk : List.length (map2 kept p t) = nrows df) by (rewrite length_map2; lia).
  destruct (wf_mutated df times Hwf Hd) as [Wm Nm].
  split; [exact Lk|].
  destruct (typed_columns_succeed df Hwf) as [out Hout];
    try (eexists; split; [eassumption|reflexivity]).
  destruct (transform_keeps df out p t Hout Hp Ht) as (-> & _ & _).
  split; [exact Hout|]. split.
  - apply TransformerBehaviour.wf_take_rows; [exact Wm|lia].
  - unfold nrows at 1, take_rows. cbn [index].
    apply TransformerBehaviour.length_compress. fold (nrows (mutated df)). lia.
Qed.

(** The block on a frame stacked from two typed frames returns the two
    outputs stacked. *)
Lemma transform_stacked (a b c : DataFrame)
    (times : list (option Z)) (p : list (option Z)) (t : list spec_float) :
  wf a -> wf b -> wf c ->
  stacked (blocks a) (blocks b) (blocks c) ->
  labelled "lpep_pickup_datetime" (normalize_columns a) = [Datetime64 times] ->
  labelled "passenger_count" (normalize_columns a) = [Int64 p] ->
  labelled "trip_distance" (normalize_columns a) = [Float64 t] ->
  exists oa ob oc,
    transform_output a = Ok oa /\ transform_output b = Ok ob /\
    transform_output c = Ok oc /\
    stacked (blocks oa) (blocks ob) (blocks oc) /\
    wf oa /\ wf ob /\ wf oc /\
    nrows oc = (nrows oa + nrows ob)%nat.
Proof.
  intros Wa Wb Wc H Hd Hp Ht.
  pose proof (stacked_rename Label.normalize _ _ _ H) as Hn.
  change (stacked (blocks (normalize_columns a)) (blocks (normalize_columns b))
            (blocks (normalize_columns c))) in Hn.
  destruct (labelled_stacked _ _ _ _ _ Hn Hd) as (sdb & sdc & Hdb & Hdc & Ad).
  destruct (labelled_stacked _ _ _ _ _ Hn Hp) as (spb & spc & Hpb & Hpc & Ap).
  destruct (labelled_stacked _ _ _ _ _ Hn Ht) as (stb & stc & Htb & Htc & At).
  apply append_datetime in Ad as (times' & -> & ->).
  apply append_int in Ap as (p' & -> & ->).
  apply append_float in At as (t' & -> & ->).
  destruct (transform_typed a _ _ _ Wa Hd Hp Ht) as (La & Ea & Woa & Na).
  destruct (transform_typed b _ _ _ Wb Hdb Hpb Htb) as (Lb & Eb & Wob & Nb).
  destruct (transform_typed c _ _ _ Wc Hdc Hpc Htc) as (Lc & Ec & Woc & Nc).
  assert (Lpt : List.length p = List.length t).
  { assert (Lp : size (Int64 p) = nrows (normalize_columns a))
      by (apply (wf_labelled _ "passenger_count");
          [apply wf_normalize, Wa|rewrite Hp; now left]).
    assert (Lt : size (Float64 t) = nrows (normalize_columns a))
      by (apply (wf_labelled _ "trip_distance");
          [apply wf_normalize, Wa|rewrite Ht; now left]).
    cbn [size] in Lp, Lt. congruence. }
  rewrite (map2_app kept p p' t t' Lpt) in *.
  do 3 eexists. split; [exact Ea|]. split; [exact Eb|]. split; [exact Ec|].
  split; [|split; [exact Woa|split; [exact Wob|split; [exact Woc|]]]].
  - unfold take_rows. cbn [blocks]. apply stacked_take_rows.
    + rewrite (mutated_typed _ _ Hd), (mutated_typed _ _ Hdb), (mutated_typed _ _ Hdc).
      apply stacked_setitem; [exact Hn|]. cbn. now rewrite map_app.
    + destruct (wf_mutated a _ Wa Hd) as [Wm Nm]. unfold wf in Wm.
      now rewrite La, <- Nm.
  - rewrite Na, Nb, Nc. apply count_true_app.
Qed.

Lemma rows_stacked (a b c : DataFrame) :
  stacked (blocks a) (blocks b) (blocks c) ->
  wf a -> wf b -> nrows c = (nrows a + nrows b)%nat ->
  rows c = (rows a ++ rows b)%list.
Proof.
  intros H Wa Wb Hn.
  destruct (stacked_schema _ _ _ H) as [Sb _].
  destruct (blocks_append_same _ _ (eq_sym Sb)) as (c' & Ec & _ & R).
  apply blocks_append_stacked in H. rewrite H in Ec. injection Ec as <-.
  destruct (R _ _ Wa Wb) as (_ & L & T).
  unfold rows, row. rewrite Hn. now apply rows_split.
Qed.

Lemma has_datetime (df : DataFrame) (key : string) :
  has_column df key datetime64_ns ->
  exists v, labelled key (normalize_columns df) = [Datetime64 v].
Proof. intros (s & H & T). apply dtype_datetime in T as [v ->]. now exists v. Qed.

Lemma has_int (df : DataFrame) (key : string) :
  has_column df key Int64Dtype ->
  exists v, labelled key (normalize_columns df) = [Int64 v].
Proof. intros (s & H & T). apply dtype_int in T as [v ->]. now exists v. Qed.

Lemma has_float (df : DataFrame) (key : string) :
  has_column df key float64 ->
  exists v, labelled key (normalize_columns df) = [Float64 v].
Proof. intros (s & H & T). apply dtype_float in T as [v ->]. now exists v. Qed.

(** X14. Filtering the stacked months gives the stacked filtered months:
    when the three resources decode to well-formed typed frames of one
    schema, the rows of the transformer's output on the loader's frame are
    the rows of its output on the first resource, then those on the
    second, then those on the third. The block can be run month by month. *)
Theorem transform_commutes_with_concat
    (read_csv : string -> string -> string -> list (string * dtype) ->
                list string -> result DataFrame)
    (b1 b2 b3 : DataFrame) :
  map (fun url => read_csv url "," "gzip" Loader.taxi_dtypes Loader.parse_dates)
      Loader.url_list
  = [Ok b1; Ok b2; Ok b3] ->
  wf b1 -> wf b2 -> wf b3 ->
  schema b2 = schema b1 -> schema b3 = schema b1 ->
  has_column b1 "lpep_pickup_datetime" datetime64_ns ->
  has_column b1 "passenger_count" Int64Dtype ->
  has_column b1 "trip_distance" float64 ->
  exists loaded out o1 o2 o3,
    Loader.load_data_from_api read_csv [] [] = Ok loaded /\
    transform_output loaded = Ok out /\
    transform_output b1 = Ok o1 /\
    transform_output b2 = Ok o2 /\
    transform_output b3 = Ok o3 /\
    rows out = (rows o1 ++ rows o2 ++ rows o3)%list /\
    nrows out = (nrows o1 + nrows o2 + nrows o3)%nat.
Proof.
  intros H W1 W2 W3 S2 S3 Hd Hp Ht.
  unfold schema in S2, S3.
  destruct (blocks_append_same (blocks b1) (blocks b2) (eq_sym S2))
    as (c12 & E12 & S12 & R12).
  destruct (R12 _ _ W1 W2) as (Z12 & _ & _).
  assert (S3' : block_schema c12 = block_schema (blocks b3)) by congruence.
  destruct (blocks_append_same c12 (blocks b3) S3') as (c & E & Sc & R).
  destruct (R _ _ Z12 W3) as (Zc & _ & _).
  set (f12 := mkframe (range_index (nrows b1 + nrows b2)) c12).
  set (loaded := mkframe (range_index (nrows b1 + nrows b2 + nrows b3)) c).
  assert (N12 : nrows f12 = (nrows b1 + nrows b2)%nat) by apply nrows_range.
  assert (Nl : nrows loaded = (nrows b1 + nrows b2 + nrows b3)%nat) by apply nrows_range.
  assert (W12 : wf f12) by (unfold wf; now rewrite N12).
  assert (Wl : wf loaded) by (unfold wf; now rewrite Nl).
  assert (Hload : Loader.load_data_from_api read_csv [] [] = Ok loaded).
  { unfold Loader.load_data_from_api.
    rewrite (read_each_all read_csv Loader.url_list [b1; b2; b3] [] H).
    cbn [rbind app]. unfold concat. cbn [blocks_concat]. rewrite E12, E.
    unfold loaded. do 3 f_equal. cbn. lia. }
  apply blocks_append_stacked in E12, E.
  destruct (has_datetime _ _ Hd) as [times Hd1].
  destruct (has_int _ _ Hp) as [p Hp1].
  destruct (has_float _ _ Ht) as [t Ht1].
  destruct (transform_stacked b1 b2 f12 times p t W1 W2 W12 E12 Hd1 Hp1 Ht1)
    as (o1 & o2 & o12 & E1 & E2 & E12' & St12 & Wo1 & Wo2 & Wo12 & No12).
  assert (S12' : schema b1 = schema f12) by exact (eq_sym S12).
  destruct (has_datetime _ _ (has_column_schema _ _ _ _ S12' Hd)) as [times12 Hd12].
  destruct (has_int _ _ (has_column_schema _ _ _ _ S12' Hp)) as [p12 Hp12].
  destruct (has_float _ _ (has_column_schema _ _ _ _ S12' Ht)) as [t12 Ht12].
  destruct (transform_stacked f12 b3 loaded times12 p12 t12 W12 W3 Wl E Hd12 Hp12 Ht12)
    as (o12' & o3 & out & E12'' & E3 & Eout & St & _ & Wo3 & Wout & Nout).
  assert (o12' = o12) as -> by congruence.
  exists loaded, out, o1, o2, o3.
  repeat (split; [assumption|]). split.
  - rewrite (rows_stacked _ _ _ St Wo12 Wo3 Nout).
    rewrite (rows_stacked _ _ _ St12 Wo1 Wo2 No12).
    now rewrite <- app_assoc.
  - lia.
Qed.

Lemma transform_commutes_with_concat_witness :
  exists loaded out o1 o2 o3,
    Loader.load_data_from_api Samples.serve [] [] = Ok loaded /\
    transform_output loaded = Ok out /\
    transform_output Samples.october = Ok o1 /\
    transform_output Samples.november = Ok o2 /\
    transform_output Samples.december = Ok o3 /\
    rows out = (rows o1 ++ rows o2 ++ rows o3)%list /\
    nrows out = (nrows o1 + nrows o2 + nrows o3)%nat.
Proof.
  apply (transform_commutes_with_concat Samples.serve);
    try reflexivity; try (repeat constructor);
    try (eexists; split; reflexivity).
Defined.

End Pipeline.
